(** * adafruit_ov7670: register configuration of the OV7670 camera driver

    A shallow embedding of [adafruit_ov7670.py].  The driver object is a
    record of its private attributes; every method is a function in a small
    state-and-exception monad over that record.  The I2C device the driver
    owns is modelled as a register file together with a log of the bus
    transactions that were carried out and a schedule of transport faults.

    Python integers are unbounded, hence [Z] with the bit operations of
    [Z] ([&] is [Z.land], [|] is [Z.lor], [~] is [Z.lnot], [>>] is
    [Z.shiftr], [<<] is [Z.shiftl], [%] with a positive divisor is
    [Z.modulo]).  Calls to [time.sleep] and the GPIO, PWM and image-capture
    collaborators touch neither the registers nor the driver attributes and
    are left out.

    The sensor is taken to be a plain register file: a read returns the
    byte last written to the address (or the byte the register held at
    the start), a transaction the bus fails changes no register, and one
    call of [_read_register] or [_write_register] is one transaction. *)

From Stdlib Require String Ascii.
From Stdlib Require Import ZArith List Bool Lia.
Import ListNotations.
Import String.StringSyntax.
Local Open Scope Z_scope.
Delimit Scope string_scope with string.

(** ** Public constants *)

Definition OV7670_COLOR_RGB : Z := 0.
Definition OV7670_COLOR_YUV : Z := 1.

Definition OV7670_SIZE_DIV1 : Z := 0.
Definition OV7670_SIZE_DIV2 : Z := 1.
Definition OV7670_SIZE_DIV4 : Z := 2.
Definition OV7670_SIZE_DIV8 : Z := 3.
Definition OV7670_SIZE_DIV16 : Z := 4.

Definition OV7670_TEST_PATTERN_NONE : Z := 0.
Definition OV7670_TEST_PATTERN_SHIFTING_1 : Z := 1.
Definition OV7670_TEST_PATTERN_COLOR_BAR : Z := 2.
Definition OV7670_TEST_PATTERN_COLOR_BAR_FADE : Z := 3.

Definition OV7670_NIGHT_MODE_OFF : Z := 0.
Definition OV7670_NIGHT_MODE_2 : Z := 0xA0.
Definition OV7670_NIGHT_MODE_4 : Z := 0xC0.
Definition OV7670_NIGHT_MODE_8 : Z := 0xE0.

(** ** Register addresses and bit masks (the ones the tables and methods use) *)

Definition _OV7670_REG_GAIN : Z := 0x00.
Definition _OV7670_REG_VREF : Z := 0x03.
Definition _OV7670_COM2_SSLEEP : Z := 0x10.
Definition _OV7670_REG_PID : Z := 0x0A.
Definition _OV7670_REG_VER : Z := 0x0B.
Definition _OV7670_REG_COM3 : Z := 0x0C.
Definition _OV7670_COM3_SCALEEN : Z := 0x08.
Definition _OV7670_COM3_DCWEN : Z := 0x04.
Definition _OV7670_REG_COM4 : Z := 0x0D.
Definition _OV7670_REG_COM5 : Z := 0x0E.
Definition _OV7670_REG_COM6 : Z := 0x0F.
Definition _OV7670_REG_COM7 : Z := 0x12.
Definition _OV7670_COM7_RESET : Z := 0x80.
Definition _OV7670_COM7_RGB : Z := 0x04.
Definition _OV7670_COM7_YUV : Z := 0x00.
Definition _OV7670_REG_COM8 : Z := 0x13.
Definition _OV7670_COM8_FASTAEC : Z := 0x80.
Definition _OV7670_COM8_AECSTEP : Z := 0x40.
Definition _OV7670_COM8_BANDING : Z := 0x20.
Definition _OV7670_COM8_AGC : Z := 0x04.
Definition _OV7670_COM8_AEC : Z := 0x01.
Definition _OV7670_REG_COM9 : Z := 0x14.
Definition _OV7670_REG_COM10 : Z := 0x15.
Definition _OV7670_COM10_VS_NEG : Z := 0x02.
Definition _OV7670_REG_HSTART : Z := 0x17.
Definition _OV7670_REG_HSTOP : Z := 0x18.
Definition _OV7670_REG_VSTART : Z := 0x19.
Definition _OV7670_REG_VSTOP : Z := 0x1A.
Definition _OV7670_REG_MVFP : Z := 0x1E.
Definition _OV7670_MVFP_MIRROR : Z := 0x20.
Definition _OV7670_MVFP_VFLIP : Z := 0x10.
Definition _OV7670_REG_ADCCTR1 : Z := 0x21.
Definition _OV7670_REG_ADCCTR2 : Z := 0x22.
Definition _OV7670_REG_AEW : Z := 0x24.
Definition _OV7670_REG_AEB : Z := 0x25.
Definition _OV7670_REG_VPT : Z := 0x26.
Definition _OV7670_REG_HREF : Z := 0x32.
Definition _OV7670_REG_CHLF : Z := 0x33.
Definition _OV7670_REG_ADC : Z := 0x37.
Definition _OV7670_REG_ACOM : Z := 0x38.
Definition _OV7670_REG_OFON : Z := 0x39.
Definition _OV7670_REG_TSLB : Z := 0x3A.
Definition _OV7670_TSLB_YLAST : Z := 0x04.
Definition _OV7670_REG_COM11 : Z := 0x3B.
Definition _OV7670_REG_COM12 : Z := 0x3C.
Definition _OV7670_REG_COM14 : Z := 0x3E.
Definition _OV7670_REG_COM15 : Z := 0x40.
Definition _OV7670_COM15_R00FF : Z := 0xC0.
Definition _OV7670_COM15_RGB565 : Z := 0x10.
Definition _OV7670_REG_AWBC1 : Z := 0x43.
Definition _OV7670_REG_AWBC2 : Z := 0x44.
Definition _OV7670_REG_AWBC3 : Z := 0x45.
Definition _OV7670_REG_AWBC4 : Z := 0x46.
Definition _OV7670_REG_AWBC5 : Z := 0x47.
Definition _OV7670_REG_AWBC6 : Z := 0x48.
Definition _OV7670_REG_MTX1 : Z := 0x4F.
Definition _OV7670_REG_MTX2 : Z := 0x50.
Definition _OV7670_REG_MTX3 : Z := 0x51.
Definition _OV7670_REG_MTX4 : Z := 0x52.
Definition _OV7670_REG_MTX5 : Z := 0x53.
Definition _OV7670_REG_MTX6 : Z := 0x54.
Definition _OV7670_REG_BRIGHT : Z := 0x55.
Definition _OV7670_REG_CONTRAS : Z := 0x56.
Definition _OV7670_REG_CONTRAS_CENTER : Z := 0x57.
Definition _OV7670_REG_LCC3 : Z := 0x64.
Definition _OV7670_REG_LCC4 : Z := 0x65.
Definition _OV7670_REG_LCC5 : Z := 0x66.
Definition _OV7670_REG_GFIX : Z := 0x69.
Definition _OV7670_REG_AWBCTR3 : Z := 0x6C.
Definition _OV7670_REG_AWBCTR2 : Z := 0x6D.
Definition _OV7670_REG_AWBCTR1 : Z := 0x6E.
Definition _OV7670_REG_AWBCTR0 : Z := 0x6F.
Definition _OV7670_REG_SCALING_XSC : Z := 0x70.
Definition _OV7670_REG_SCALING_YSC : Z := 0x71.
Definition _OV7670_REG_SCALING_DCWCTR : Z := 0x72.
Definition _OV7670_REG_SCALING_PCLK_DIV : Z := 0x73.
Definition _OV7670_REG_REG74 : Z := 0x74.
Definition _OV7670_REG_SLOP : Z := 0x7A.
Definition _OV7670_REG_GAM_BASE : Z := 0x7B.
Definition _OV7670_REG_RGB444 : Z := 0x8C.
Definition _OV7670_REG_DM_LNL : Z := 0x92.
Definition _OV7670_REG_LCC6 : Z := 0x94.
Definition _OV7670_REG_LCC7 : Z := 0x95.
Definition _OV7670_REG_HAECC1 : Z := 0x9F.
Definition _OV7670_REG_HAECC2 : Z := 0xA0.
Definition _OV7670_REG_SCALING_PCLK_DELAY : Z := 0xA2.
Definition _OV7670_REG_BD50MAX : Z := 0xA5.
Definition _OV7670_REG_HAECC3 : Z := 0xA6.
Definition _OV7670_REG_HAECC4 : Z := 0xA7.
Definition _OV7670_REG_HAECC5 : Z := 0xA8.
Definition _OV7670_REG_HAECC6 : Z := 0xA9.
Definition _OV7670_REG_HAECC7 : Z := 0xAA.
Definition _OV7670_REG_BD60MAX : Z := 0xAB.
Definition _OV7670_REG_ABLC1 : Z := 0xB1.
Definition _OV7670_REG_THL_ST : Z := 0xB3.

(** ** Register tables: flat [bytes] objects, address and value alternating *)

Definition _OV7670_rgb : list Z :=
  [ _OV7670_REG_COM7; _OV7670_COM7_RGB;
    _OV7670_REG_RGB444; 0;
    _OV7670_REG_COM15; Z.lor _OV7670_COM15_RGB565 _OV7670_COM15_R00FF ].

Definition _OV7670_yuv : list Z :=
  [ _OV7670_REG_COM7; _OV7670_COM7_YUV;
    _OV7670_REG_COM15; _OV7670_COM15_R00FF ].

Definition _OV7670_init : list Z :=
  [ _OV7670_REG_TSLB; _OV7670_TSLB_YLAST;
    _OV7670_REG_COM10; _OV7670_COM10_VS_NEG;
    _OV7670_REG_SLOP; 0x20;
    _OV7670_REG_GAM_BASE; 0x1C;
    _OV7670_REG_GAM_BASE + 1; 0x28;
    _OV7670_REG_GAM_BASE + 2; 0x3C;
    _OV7670_REG_GAM_BASE + 3; 0x55;
    _OV7670_REG_GAM_BASE + 4; 0x68;
    _OV7670_REG_GAM_BASE + 5; 0x76;
    _OV7670_REG_GAM_BASE + 6; 0x80;
    _OV7670_REG_GAM_BASE + 7; 0x88;
    _OV7670_REG_GAM_BASE + 8; 0x8F;
    _OV7670_REG_GAM_BASE + 9; 0x96;
    _OV7670_REG_GAM_BASE + 10; 0xA3;
    _OV7670_REG_GAM_BASE + 11; 0xAF;
    _OV7670_REG_GAM_BASE + 12; 0xC4;
    _OV7670_REG_GAM_BASE + 13; 0xD7;
    _OV7670_REG_GAM_BASE + 14; 0xE8;
    _OV7670_REG_COM8;
    Z.lor (Z.lor _OV7670_COM8_FASTAEC _OV7670_COM8_AECSTEP) _OV7670_COM8_BANDING;
    _OV7670_REG_GAIN; 0x00;
    _OV7670_COM2_SSLEEP; 0x00;
    _OV7670_REG_COM4; 0x00;
    _OV7670_REG_COM9; 0x20;
    _OV7670_REG_BD50MAX; 0x05;
    _OV7670_REG_BD60MAX; 0x07;
    _OV7670_REG_AEW; 0x75;
    _OV7670_REG_AEB; 0x63;
    _OV7670_REG_VPT; 0xA5;
    _OV7670_REG_HAECC1; 0x78;
    _OV7670_REG_HAECC2; 0x68;
    0xA1; 0x03;
    _OV7670_REG_HAECC3; 0xDF;
    _OV7670_REG_HAECC4; 0xDF;
    _OV7670_REG_HAECC5; 0xF0;
    _OV7670_REG_HAECC6; 0x90;
    _OV7670_REG_HAECC7; 0x94;
    _OV7670_REG_COM8;
    Z.lor (Z.lor (Z.lor (Z.lor _OV7670_COM8_FASTAEC _OV7670_COM8_AECSTEP)
                        _OV7670_COM8_BANDING) _OV7670_COM8_AGC) _OV7670_COM8_AEC;
    _OV7670_REG_COM5; 0x61;
    _OV7670_REG_COM6; 0x4B;
    0x16; 0x02;
    _OV7670_REG_MVFP; 0x07;
    _OV7670_REG_ADCCTR1; 0x02;
    _OV7670_REG_ADCCTR2; 0x91;
    0x29; 0x07;
    _OV7670_REG_CHLF; 0x0B;
    0x35; 0x0B;
    _OV7670_REG_ADC; 0x1D;
    _OV7670_REG_ACOM; 0x71;
    _OV7670_REG_OFON; 0x2A;
    _OV7670_REG_COM12; 0x78;
    0x4D; 0x40;
    0x4E; 0x20;
    _OV7670_REG_GFIX; 0x5D;
    _OV7670_REG_REG74; 0x19;
    0x8D; 0x4F;
    0x8E; 0x00;
    0x8F; 0x00;
    0x90; 0x00;
    0x91; 0x00;
    _OV7670_REG_DM_LNL; 0x00;
    0x96; 0x00;
    0x9A; 0x80;
    0xB0; 0x84;
    _OV7670_REG_ABLC1; 0x0C;
    0xB2; 0x0E;
    _OV7670_REG_THL_ST; 0x82;
    0xB8; 0x0A;
    _OV7670_REG_AWBC1; 0x14;
    _OV7670_REG_AWBC2; 0xF0;
    _OV7670_REG_AWBC3; 0x34;
    _OV7670_REG_AWBC4; 0x58;
    _OV7670_REG_AWBC5; 0x28;
    _OV7670_REG_AWBC6; 0x3A;
    0x59; 0x88;
    0x5A; 0x88;
    0x5B; 0x44;
    0x5C; 0x67;
    0x5D; 0x49;
    0x5E; 0x0E;
    _OV7670_REG_LCC3; 0x04;
    _OV7670_REG_LCC4; 0x20;
    _OV7670_REG_LCC5; 0x05;
    _OV7670_REG_LCC6; 0x04;
    _OV7670_REG_LCC7; 0x08;
    _OV7670_REG_AWBCTR3; 0x0A;
    _OV7670_REG_AWBCTR2; 0x55;
    _OV7670_REG_MTX1; 0x80;
    _OV7670_REG_MTX2; 0x80;
    _OV7670_REG_MTX3; 0x00;
    _OV7670_REG_MTX4; 0x22;
    _OV7670_REG_MTX5; 0x5E;
    _OV7670_REG_MTX6; 0x80;
    _OV7670_REG_AWBCTR1; 0x11;
    _OV7670_REG_AWBCTR0; 0x9F;
    _OV7670_REG_BRIGHT; 0x00;
    _OV7670_REG_CONTRAS; 0x40;
    _OV7670_REG_CONTRAS_CENTER; 0x80 ].

(** [_window]: one row [vstart, hstart, edge_offset, pclk_delay] per size. *)
Definition _window : list (Z * Z * Z * Z) :=
  [ (9, 162, 2, 2);
    (10, 174, 0, 2);
    (11, 186, 2, 2);
    (12, 210, 0, 2);
    (15, 252, 3, 2) ].

(** ** Exceptions and results *)

Inductive exn : Type :=
| OSError      (* transport failure raised by the I2C device *)
| ValueError   (* a value that does not fit a [bytearray] cell, a negative shift *)
| IndexError   (* an index outside a sequence *)
| TypeError.   (* an operand that is [None] *)

Inductive result (A : Type) : Type :=
| Ok (a : A)
| Raise (e : exn).
Arguments Ok {A} a.
Arguments Raise {A} e.

(** ** The I2C device: register file, transaction log, fault schedule *)

Inductive event : Type :=
| EvRead (reg val : Z)
| EvWrite (reg val : Z).

(** [faults d n] tells whether the [n]-th transaction on the device fails;
    [ticks d] counts the transactions attempted so far; [trace d] lists the
    transactions that went through, oldest first. *)
Record I2CDevice : Type := mkDevice {
  regs : Z -> Z;
  faults : nat -> bool;
  ticks : nat;
  trace : list event
}.

Definition upd (f : Z -> Z) (r v : Z) : Z -> Z :=
  fun r' => if r' =? r then v else f r'.

Definition dev_write (d : I2CDevice) (r v : Z) : I2CDevice :=
  {| regs := upd (regs d) r v; faults := faults d;
     ticks := S (ticks d); trace := trace d ++ [EvWrite r v] |}.

Definition dev_read (d : I2CDevice) (r : Z) : I2CDevice :=
  {| regs := regs d; faults := faults d;
     ticks := S (ticks d); trace := trace d ++ [EvRead r (regs d r)] |}.

Definition dev_fail (d : I2CDevice) : I2CDevice :=
  {| regs := regs d; faults := faults d;
     ticks := S (ticks d); trace := trace d |}.

Definition fault_free (d : I2CDevice) : Prop := forall n, faults d n = false.

Definition is_byte (v : Z) : bool := (0 <=? v) && (v <? 256).

(** ** The driver object *)

Record OV7670 : Type := mkOV7670 {
  _i2c_device : I2CDevice;
  _colorspace : option Z;
  _size : option Z;
  _test_pattern : option Z;
  _flip_x : bool;
  _flip_y : bool;
  _night : Z
}.

Definition with_device (self : OV7670) (d : I2CDevice) : OV7670 :=
  {| _i2c_device := d; _colorspace := _colorspace self; _size := _size self;
     _test_pattern := _test_pattern self; _flip_x := _flip_x self;
     _flip_y := _flip_y self; _night := _night self |}.

Definition with_colorspace (self : OV7670) (v : option Z) : OV7670 :=
  {| _i2c_device := _i2c_device self; _colorspace := v; _size := _size self;
     _test_pattern := _test_pattern self; _flip_x := _flip_x self;
     _flip_y := _flip_y self; _night := _night self |}.

Definition with_size (self : OV7670) (v : option Z) : OV7670 :=
  {| _i2c_device := _i2c_device self; _colorspace := _colorspace self; _size := v;
     _test_pattern := _test_pattern self; _flip_x := _flip_x self;
     _flip_y := _flip_y self; _night := _night self |}.

Definition with_test_pattern (self : OV7670) (v : option Z) : OV7670 :=
  {| _i2c_device := _i2c_device self; _colorspace := _colorspace self;
     _size := _size self; _test_pattern := v; _flip_x := _flip_x self;
     _flip_y := _flip_y self; _night := _night self |}.

Definition with_flip_x (self : OV7670) (v : bool) : OV7670 :=
  {| _i2c_device := _i2c_device self; _colorspace := _colorspace self;
     _size := _size self; _test_pattern := _test_pattern self; _flip_x := v;
     _flip_y := _flip_y self; _night := _night self |}.

Definition with_flip_y (self : OV7670) (v : bool) : OV7670 :=
  {| _i2c_device := _i2c_device self; _colorspace := _colorspace self;
     _size := _size self; _test_pattern := _test_pattern self;
     _flip_x := _flip_x self; _flip_y := v; _night := _night self |}.

Definition with_night (self : OV7670) (v : Z) : OV7670 :=
  {| _i2c_device := _i2c_device self; _colorspace := _colorspace self;
     _size := _size self; _test_pattern := _test_pattern self;
     _flip_x := _flip_x self; _flip_y := _flip_y self; _night := v |}.

(** ** The method monad: state of the object, exceptions keep the state *)

Definition M (A : Type) : Type := OV7670 -> result A * OV7670.

Definition ret {A} (a : A) : M A := fun self => (Ok a, self).
Definition raise {A} (e : exn) : M A := fun self => (Raise e, self).
Definition bind {A B} (m : M A) (k : A -> M B) : M B :=
  fun self =>
    match m self with
    | (Ok a, self') => k a self'
    | (Raise e, self') => (Raise e, self')
    end.
Definition assign (f : OV7670 -> OV7670) : M unit := fun self => (Ok tt, f self).

Notation "x <- m ;; k" := (bind m (fun x => k))
  (at level 61, m at next level, right associativity).
Notation "m ;; k" := (bind m (fun _ => k))
  (at level 61, right associativity).

(** ** Bus primitives *)

(** [_write_register]: both cells of the two-byte buffer must take their
    value (a [bytearray] cell refuses anything outside [range(256)]) before
    the device is touched. *)
Definition _write_register (reg value : Z) : M unit :=
  fun self =>
    if negb (is_byte reg) then (Raise ValueError, self)
    else if negb (is_byte value) then (Raise ValueError, self)
    else
      let d := _i2c_device self in
      if faults d (ticks d) then (Raise OSError, with_device self (dev_fail d))
      else (Ok tt, with_device self (dev_write d reg value)).

Definition _read_register (reg : Z) : M Z :=
  fun self =>
    if negb (is_byte reg) then (Raise ValueError, self)
    else
      let d := _i2c_device self in
      if faults d (ticks d) then (Raise OSError, with_device self (dev_fail d))
      else (Ok (regs d reg), with_device self (dev_read d reg)).

(** [_write_list]: the loop over [range(0, len(reg_list), 2)]; a trailing
    unpaired cell makes [reg_list[i + 1]] fail before anything is written. *)
Fixpoint _write_list (reg_list : list Z) : M unit :=
  match reg_list with
  | [] => ret tt
  | [_] => raise IndexError
  | reg :: value :: rest => _write_register reg value ;; _write_list rest
  end.

(** ** Frame geometry *)

Definition _frame_control (size vstart hstart edge_offset pclk_delay : Z) : M unit :=
  let value := if OV7670_SIZE_DIV1 <? size then _OV7670_COM3_DCWEN else 0 in
  let value := if size =? OV7670_SIZE_DIV16
               then Z.lor value _OV7670_COM3_SCALEEN else value in
  _write_register _OV7670_REG_COM3 value ;;
  let value := if OV7670_SIZE_DIV1 <? size then 0x18 + size else 0 in
  _write_register _OV7670_REG_COM14 value ;;
  let value := if size <=? OV7670_SIZE_DIV8 then size else OV7670_SIZE_DIV8 in
  _write_register _OV7670_REG_SCALING_DCWCTR (value * 0x11) ;;
  let value := if OV7670_SIZE_DIV1 <? size then 0xF0 + size else 0x08 in
  _write_register _OV7670_REG_SCALING_PCLK_DIV value ;;
  let value := if size =? OV7670_SIZE_DIV16 then 0x40 else 0x20 in
  xsc <- _read_register _OV7670_REG_SCALING_XSC ;;
  ysc <- _read_register _OV7670_REG_SCALING_YSC ;;
  let xsc := Z.lor (Z.land xsc 0x80) value in
  let ysc := Z.lor (Z.land ysc 0x80) value in
  _write_register _OV7670_REG_SCALING_XSC xsc ;;
  _write_register _OV7670_REG_SCALING_YSC ysc ;;
  let vstop := vstart + 480 in
  let hstop := (hstart + 640) mod 784 in
  _write_register _OV7670_REG_HSTART (Z.shiftr hstart 3) ;;
  _write_register _OV7670_REG_HSTOP (Z.shiftr hstop 3) ;;
  _write_register _OV7670_REG_HREF
    (Z.lor (Z.lor (Z.shiftl edge_offset 6) (Z.shiftl (Z.land hstop 7) 3))
           (Z.land hstart 7)) ;;
  _write_register _OV7670_REG_VSTART (Z.shiftr vstart 2) ;;
  _write_register _OV7670_REG_VSTOP (Z.shiftr vstop 2) ;;
  _write_register _OV7670_REG_VREF
    (Z.lor (Z.shiftl (Z.land vstop 3) 2) (Z.land vstart 3)) ;;
  _write_register _OV7670_REG_SCALING_PCLK_DELAY pclk_delay.

(** Indexing a Python list: a negative index counts from the end. *)
Definition py_index {A} (l : list A) (i : Z) : option A :=
  let n := Z.of_nat (length l) in
  if (0 <=? i) && (i <? n) then nth_error l (Z.to_nat i)
  else if (- n <=? i) && (i <? 0) then nth_error l (Z.to_nat (i + n))
  else None.

(** ** Properties *)

Definition width (self : OV7670) : result Z :=
  match _size self with
  | None => Raise TypeError
  | Some s => if s <? 0 then Raise ValueError else Ok (Z.shiftr 640 s)
  end.

Definition height (self : OV7670) : result Z :=
  match _size self with
  | None => Raise TypeError
  | Some s => if s <? 0 then Raise ValueError else Ok (Z.shiftr 480 s)
  end.

Definition colorspace (self : OV7670) : option Z := _colorspace self.

Definition colorspace_setter (colorspace : Z) : M unit :=
  assign (fun self => with_colorspace self (Some colorspace)) ;;
  _write_list (if colorspace =? OV7670_COLOR_RGB then _OV7670_rgb else _OV7670_yuv).

Definition size (self : OV7670) : option Z := _size self.

Definition size_setter (size : Z) : M unit :=
  match py_index _window size with
  | None => raise IndexError
  | Some (vstart, hstart, edge_offset, pclk_delay) =>
      _frame_control size vstart hstart edge_offset pclk_delay ;;
      assign (fun self => with_size self (Some size))
  end.

Definition test_pattern (self : OV7670) : option Z := _test_pattern self.

Definition test_pattern_setter (pattern : Z) : M unit :=
  xsc <- _read_register _OV7670_REG_SCALING_XSC ;;
  let xsc := Z.land xsc (Z.lnot 0x80) in
  ysc <- _read_register _OV7670_REG_SCALING_YSC ;;
  let ysc := Z.land ysc (Z.lnot 0x80) in
  let xsc := if negb (Z.land pattern 1 =? 0) then Z.lor xsc 0x80 else xsc in
  let ysc := if negb (Z.land pattern 2 =? 0) then Z.lor ysc 0x80 else ysc in
  _write_register _OV7670_REG_SCALING_XSC xsc ;;
  _write_register _OV7670_REG_SCALING_YSC ysc.

Definition _set_flip : M unit :=
  mvfp <- _read_register _OV7670_REG_MVFP ;;
  fun self =>
    let mvfp := if _flip_x self then Z.lor mvfp _OV7670_MVFP_MIRROR
                else Z.land mvfp (Z.lnot _OV7670_MVFP_MIRROR) in
    let mvfp := if _flip_y self then Z.lor mvfp _OV7670_MVFP_VFLIP
                else Z.land mvfp (Z.lnot _OV7670_MVFP_VFLIP) in
    _write_register _OV7670_REG_MVFP mvfp self.

Definition flip_x (self : OV7670) : bool := _flip_x self.
Definition flip_y (self : OV7670) : bool := _flip_y self.

(** [bool(value)] of an integer is [value != 0]. *)
Definition flip_x_setter (value : Z) : M unit :=
  assign (fun self => with_flip_x self (negb (value =? 0))) ;; _set_flip.

Definition flip_y_setter (value : Z) : M unit :=
  assign (fun self => with_flip_y self (negb (value =? 0))) ;; _set_flip.

Definition night (self : OV7670) : Z := _night self.

Definition night_setter (value : Z) : M unit :=
  com11 <- _read_register _OV7670_REG_COM11 ;;
  let com11 := Z.lor (Z.land com11 0x1F) value in
  _write_register _OV7670_REG_COM11 com11 ;;
  assign (fun self => with_night self value).

Definition product_id : M Z := _read_register _OV7670_REG_PID.
Definition product_version : M Z := _read_register _OV7670_REG_VER.

(** ** Construction

    [reset] tells whether a reset pin was given; without one the sensor is
    reset through COM7.  The object starts with the device alone; the
    attributes not assigned yet are shown with the value [__init__] gives
    them first ([None], [False], night mode off), none is read before. *)
Definition new_OV7670 (d : I2CDevice) : OV7670 :=
  {| _i2c_device := d; _colorspace := None; _size := None;
     _test_pattern := None; _flip_x := false; _flip_y := false;
     _night := OV7670_NIGHT_MODE_OFF |}.

Definition __init__ (reset : bool) : M unit :=
  (if reset then ret tt else _write_register _OV7670_REG_COM7 _OV7670_COM7_RESET) ;;
  assign (fun self => with_colorspace self None) ;;
  colorspace_setter OV7670_COLOR_RGB ;;
  _write_list _OV7670_init ;;
  assign (fun self => with_size self None) ;;
  size_setter OV7670_SIZE_DIV8 ;;
  assign (fun self => with_test_pattern self None) ;;
  test_pattern_setter OV7670_TEST_PATTERN_NONE ;;
  assign (fun self => with_flip_x self false) ;;
  assign (fun self => with_flip_y self false) ;;
  assign (fun self => with_night self OV7670_NIGHT_MODE_OFF).

(** ** Reading the transaction log *)

Fixpoint pairs (l : list Z) : list (Z * Z) :=
  match l with
  | r :: v :: rest => (r, v) :: pairs rest
  | _ => []
  end.

Definition writes_of (t : list event) : list (Z * Z) :=
  flat_map (fun e => match e with EvWrite r v => [(r, v)] | EvRead _ _ => [] end) t.

(** Values written to, respectively read from, register [r], in order. *)
Definition written (r : Z) (t : list event) : list Z :=
  flat_map (fun e => match e with
                     | EvWrite r' v => if r' =? r then [v] else []
                     | EvRead _ _ => [] end) t.

Definition read_from (r : Z) (t : list event) : list Z :=
  flat_map (fun e => match e with
                     | EvRead r' v => if r' =? r then [v] else []
                     | EvWrite _ _ => [] end) t.

(** The transactions a call added to the log. *)
Definition emitted (before after : OV7670) : list event :=
  skipn (length (trace (_i2c_device before))) (trace (_i2c_device after)).

Definition reg_of (self : OV7670) (r : Z) : Z := regs (_i2c_device self) r.

(** A quiet device with every register cleared, for concrete runs. *)
Definition dev0 : I2CDevice :=
  {| regs := fun _ => 0; faults := fun _ => false; ticks := 0%nat; trace := [] |}.

(** Register file after a list of writes, oldest first. *)
Definition replay (f : Z -> Z) (ws : list (Z * Z)) : Z -> Z :=
  fold_left (fun g rv => upd g (fst rv) (snd rv)) ws f.

(** The transactions of one successful [_frame_control], given the bytes
    [x] and [y] it reads from SCALING_XSC and SCALING_YSC. *)
Definition frame_events (c vstart hstart edge_offset pclk_delay x y : Z) : list event :=
  let zoom := if c =? OV7670_SIZE_DIV16 then 0x40 else 0x20 in
  let vstop := vstart + 480 in
  let hstop := (hstart + 640) mod 784 in
  [ EvWrite _OV7670_REG_COM3
      (Z.lor (if 0 <? c then _OV7670_COM3_DCWEN else 0)
             (if c =? OV7670_SIZE_DIV16 then _OV7670_COM3_SCALEEN else 0));
    EvWrite _OV7670_REG_COM14 (if 0 <? c then 0x18 + c else 0);
    EvWrite _OV7670_REG_SCALING_DCWCTR (Z.min c OV7670_SIZE_DIV8 * 0x11);
    EvWrite _OV7670_REG_SCALING_PCLK_DIV (if 0 <? c then 0xF0 + c else 0x08);
    EvRead _OV7670_REG_SCALING_XSC x;
    EvRead _OV7670_REG_SCALING_YSC y;
    EvWrite _OV7670_REG_SCALING_XSC (Z.lor (Z.land x 0x80) zoom);
    EvWrite _OV7670_REG_SCALING_YSC (Z.lor (Z.land y 0x80) zoom);
    EvWrite _OV7670_REG_HSTART (Z.shiftr hstart 3);
    EvWrite _OV7670_REG_HSTOP (Z.shiftr hstop 3);
    EvWrite _OV7670_REG_HREF
      (Z.lor (Z.lor (Z.shiftl edge_offset 6) (Z.shiftl (Z.land hstop 7) 3))
             (Z.land hstart 7));
    EvWrite _OV7670_REG_VSTART (Z.shiftr vstart 2);
    EvWrite _OV7670_REG_VSTOP (Z.shiftr vstop 2);
    EvWrite _OV7670_REG_VREF
      (Z.lor (Z.shiftl (Z.land vstop 3) 2) (Z.land vstart 3));
    EvWrite _OV7670_REG_SCALING_PCLK_DELAY pclk_delay ].

(** ** Vocabulary of the statements *)

(** The private attributes of two states agree (the device may differ). *)
Definition same_attrs (s s' : OV7670) : Prop :=
  _colorspace s' = _colorspace s /\ _size s' = _size s /\
  _test_pattern s' = _test_pattern s /\ _flip_x s' = _flip_x s /\
  _flip_y s' = _flip_y s /\ _night s' = _night s.

(** A computation that only talks to the bus. *)
Definition bus_only {A} (m : M A) : Prop :=
  forall self, same_attrs self (snd (m self)).

(** A computation that stops with [OSError] at the first transaction the
    device fails, and never touches the fault schedule. *)
Definition fault_sound {A} (m : M A) : Prop :=
  forall self,
    let d := _i2c_device self in
    let d' := _i2c_device (snd (m self)) in
    faults d' = faults d /\
    (ticks d <= ticks d')%nat /\
    forall n, (ticks d <= n < ticks d')%nat -> faults d n = true ->
              fst (m self) = Raise OSError.

(** The device after a list of register writes. *)
Definition dev_write_all (d : I2CDevice) (ws : list (Z * Z)) : I2CDevice :=
  fold_left (fun d' rv => dev_write d' (fst rv) (snd rv)) ws d.

Definition write_events (ws : list (Z * Z)) : list event :=
  map (fun rv => EvWrite (fst rv) (snd rv)) ws.

(** The order C3 asks of the register writes of construction: the
    baseline table as one block, the colorspace patch somewhere after it. *)
Definition baseline_before_defaults (ws : list (Z * Z)) : Prop :=
  exists pre post,
    ws = pre ++ pairs _OV7670_init ++ post /\
    incl (pairs _OV7670_rgb) post.

(** ** Concrete states for examples *)

(** A camera whose MVFP register has the vertical-flip bit set (0x17 is
    the baseline 0x07 with VFLIP) while the driver's [_flip_y] is false. *)
Definition stale_vflip : OV7670 :=
  with_device (new_OV7670 dev0) (dev_write dev0 _OV7670_REG_MVFP 0x17).

(** The camera as constructed, without a reset pin, on [dev0]. *)
Definition fresh_camera : OV7670 := snd (__init__ false (new_OV7670 dev0)).

(** A camera showing the "shifting 1" pattern at unity zoom: bit 7 of
    SCALING_XSC set, 0x20 in the low bits of both scaling registers. *)
Definition patterned_camera : OV7670 :=
  with_device (new_OV7670 dev0)
    (dev_write (dev_write dev0 _OV7670_REG_SCALING_XSC 0xA0)
               _OV7670_REG_SCALING_YSC 0x20).

(** A camera whose MVFP and COM11 hold the values 0x07 and 0x5A. *)
Definition baseline_camera : OV7670 :=
  with_device (new_OV7670 dev0)
    (dev_write (dev_write dev0 _OV7670_REG_MVFP 0x07) _OV7670_REG_COM11 0x5A).

(** A device whose MVFP holds the baseline 0x07 and whose third
    transaction fails, and the camera states three setter calls lead
    through on it: [flip_y = True] goes through, [flip_y = False] fails on
    the bus, [flip_x = True] goes through. *)
Definition flip_dev : I2CDevice :=
  {| regs := upd (fun _ => 0) _OV7670_REG_MVFP 0x07;
     faults := fun n => Nat.eqb n 2; ticks := 0%nat; trace := [] |}.

Definition flipped_y : OV7670 := snd (flip_y_setter 1 (new_OV7670 flip_dev)).
Definition unflipped_y_failed : OV7670 := snd (flip_y_setter 0 flipped_y).
Definition flipped_x : OV7670 := snd (flip_x_setter 1 unflipped_y_failed).

(** A device whose fourth transaction fails. *)
Definition flaky_dev : I2CDevice :=
  {| regs := fun _ => 0; faults := fun n => Nat.eqb n 3;
     ticks := 0%nat; trace := [] |}.

(** A camera on [flaky_dev] showing 1:2 size and night mode 1/2. *)
Definition flaky_camera : OV7670 :=
  {| _i2c_device := flaky_dev; _colorspace := Some OV7670_COLOR_RGB;
     _size := Some OV7670_SIZE_DIV2; _test_pattern := None;
     _flip_x := false; _flip_y := false; _night := OV7670_NIGHT_MODE_2 |}.

(** The same camera once three transactions are behind it, so that the
    next one is the failing one. *)
Definition flaky_camera_late : OV7670 :=
  with_device flaky_camera
    {| regs := fun _ => 0; faults := fun n => Nat.eqb n 3;
       ticks := 3%nat; trace := [] |}.

(** ** Footprints and failure behaviour *)

(** A computation that leaves every register outside [S] as it was,
    whatever the bus does. *)
Definition touches_only (S : list Z) {A} (m : M A) : Prop :=
  forall self r, ~ In r S -> reg_of (snd (m self)) r = reg_of self r.

(** A computation whose log only grows, whose register file afterwards is
    the one before with the logged writes replayed, and whose writes all
    go to registers of [S]. *)
Definition confined (S : list Z) {A} (m : M A) : Prop :=
  forall self, exists evs,
    trace (_i2c_device (snd (m self))) = trace (_i2c_device self) ++ evs /\
    (forall r, reg_of (snd (m self)) r
               = replay (regs (_i2c_device self)) (writes_of evs) r) /\
    incl (map fst (writes_of evs)) S.

(** The registers [_frame_control] writes, in the order of its writes. *)
Definition frame_registers : list Z :=
  [ _OV7670_REG_COM3; _OV7670_REG_COM14; _OV7670_REG_SCALING_DCWCTR;
    _OV7670_REG_SCALING_PCLK_DIV; _OV7670_REG_SCALING_XSC;
    _OV7670_REG_SCALING_YSC; _OV7670_REG_HSTART; _OV7670_REG_HSTOP;
    _OV7670_REG_HREF; _OV7670_REG_VSTART; _OV7670_REG_VSTOP;
    _OV7670_REG_VREF; _OV7670_REG_SCALING_PCLK_DELAY ].

(** The registers of the two colorspace lists. *)
Definition colorspace_registers : list Z :=
  [ _OV7670_REG_COM7; _OV7670_REG_RGB444; _OV7670_REG_COM15 ].


(** The byte [_set_flip] computes from the byte it read and the two
    flags. *)
Definition flip_byte (mvfp : Z) (fx fy : bool) : Z :=
  let mvfp := if fx then Z.lor mvfp _OV7670_MVFP_MIRROR
              else Z.land mvfp (Z.lnot _OV7670_MVFP_MIRROR) in
  if fy then Z.lor mvfp _OV7670_MVFP_VFLIP
  else Z.land mvfp (Z.lnot _OV7670_MVFP_VFLIP).



(** ** The example [examples/ov7670_simpletest.py]

    The script constructs the camera, selects the 1:16 size and YUV,
    captures one frame into a buffer of two bytes per pixel and prints
    the first byte of every pixel as one of ten characters.  The index
    arithmetic of its two loops is modelled; the capture itself is the
    work of the image-capture collaborator. *)






(** ** More concrete states *)

(** A camera on a bus that fails every transaction. *)
Definition dead_bus_camera : OV7670 :=
  new_OV7670 {| regs := fun _ => 0; faults := fun _ => true;
                ticks := 0%nat; trace := [] |}.


(** * Verification *)

(** ** Bytes and bit masks *)

Lemma byte_land_255 (x : Z) : 0 <= x < 256 <-> Z.land x 255 = x.
Proof.
  change 255 with (Z.ones 8). rewrite Z.land_ones by lia.
  change (2 ^ 8) with 256. split; intro H.
  - apply Z.mod_small; exact H.
  - rewrite <- H. apply Z.mod_pos_bound. lia.
Qed.

Lemma is_byte_true (x : Z) : is_byte x = true <-> 0 <= x < 256.
Proof. unfold is_byte. rewrite andb_true_iff, Z.leb_le, Z.ltb_lt. tauto. Qed.

Lemma land_byte (x m : Z) : 0 <= x < 256 -> 0 <= Z.land x m < 256.
Proof.
  intro H. apply byte_land_255 in H. apply byte_land_255.
  rewrite <- Z.land_assoc, (Z.land_comm m 255), Z.land_assoc, H. reflexivity.
Qed.

Lemma lor_byte (x y : Z) : 0 <= x < 256 -> 0 <= y < 256 -> 0 <= Z.lor x y < 256.
Proof.
  intros Hx Hy. apply byte_land_255 in Hx, Hy. apply byte_land_255.
  rewrite Z.land_lor_distr_l, Hx, Hy. reflexivity.
Qed.

(** A single-bit mask selects the bit or nothing. *)
Lemma land_pow2 (x n : Z) :
  0 <= n -> Z.land x (2 ^ n) = if Z.testbit x n then 2 ^ n else 0.
Proof.
  intro Hn. apply Z.bits_inj'. intros i Hi.
  rewrite Z.land_spec, Z.pow2_bits_eqb by lia.
  destruct (Z.eqb_spec n i) as [->|Hne].
  - destruct (Z.testbit x i); simpl.
    + symmetry. apply Z.pow2_bits_true. lia.
    + symmetry. apply Z.bits_0.
  - rewrite andb_false_r. destruct (Z.testbit x n).
    + symmetry. apply Z.pow2_bits_false. exact Hne.
    + symmetry. apply Z.bits_0.
Qed.

(** ** The log *)

Lemma skipn_exact {A} (l k : list A) : skipn (length l) (l ++ k) = k.
Proof. induction l; simpl; auto. Qed.

Lemma writes_of_app (s t : list event) : writes_of (s ++ t) = writes_of s ++ writes_of t.
Proof. unfold writes_of. apply flat_map_app. Qed.

(** ** Bus primitives on a device without faults *)

Lemma write_register_ok (self : OV7670) (reg value : Z) :
  fault_free (_i2c_device self) ->
  0 <= reg < 256 -> 0 <= value < 256 ->
  _write_register reg value self =
  (Ok tt, with_device self (dev_write (_i2c_device self) reg value)).
Proof.
  intros Hff Hr Hv. unfold _write_register.
  apply is_byte_true in Hr, Hv. rewrite Hr, Hv, Hff. reflexivity.
Qed.

Lemma read_register_ok (self : OV7670) (reg : Z) :
  fault_free (_i2c_device self) ->
  0 <= reg < 256 ->
  _read_register reg self =
  (Ok (regs (_i2c_device self) reg), with_device self (dev_read (_i2c_device self) reg)).
Proof.
  intros Hff Hr. unfold _read_register.
  apply is_byte_true in Hr. rewrite Hr, Hff. reflexivity.
Qed.

Lemma with_device_twice (self : OV7670) (d1 d2 : I2CDevice) :
  with_device (with_device self d1) d2 = with_device self d2.
Proof. reflexivity. Qed.

(** Runs the next register transaction of a method on a fault-free device;
    [tac] settles the byte ranges. *)
Ltac bus_step tac :=
  try unfold bind at 1; cbv zeta;
  first [ rewrite write_register_ok by tac
        | rewrite read_register_ok by tac ];
  cbv beta iota; rewrite ?with_device_twice; cbn [_i2c_device with_device].

Ltac flatten_trace :=
  cbn [trace dev_write dev_read]; repeat rewrite <- app_assoc; cbn [app].

Ltac closed_byte := vm_compute; intuition congruence.

(** ** Frame control on a fault-free device *)

Lemma frame_control_run (self : OV7670) (c vstart hstart edge_offset pclk_delay : Z) :
  fault_free (_i2c_device self) ->
  0 <= reg_of self _OV7670_REG_SCALING_XSC < 256 ->
  0 <= reg_of self _OV7670_REG_SCALING_YSC < 256 ->
  0 <= c <= 4 ->
  py_index _window c = Some (vstart, hstart, edge_offset, pclk_delay) ->
  let evs := frame_events c vstart hstart edge_offset pclk_delay
               (reg_of self _OV7670_REG_SCALING_XSC)
               (reg_of self _OV7670_REG_SCALING_YSC) in
  exists d',
    _frame_control c vstart hstart edge_offset pclk_delay self
      = (Ok tt, with_device self d') /\
    trace d' = trace (_i2c_device self) ++ evs /\
    faults d' = faults (_i2c_device self) /\
    (forall r, regs d' r = replay (regs (_i2c_device self)) (writes_of evs) r).
Proof.
  intros Hff Hx Hy Hc Hrow.
  assert (Hcases : c = 0 \/ c = 1 \/ c = 2 \/ c = 3 \/ c = 4) by lia.
  unfold reg_of in Hx, Hy |- *.
  destruct Hcases as [->|[->|[->|[->| ->]]]];
    vm_compute in Hrow; injection Hrow as <- <- <- <-;
    cbv zeta; unfold frame_events, _frame_control.
  all: do 15 bus_step ltac:(first
         [ exact Hff | closed_byte
         | apply lor_byte; [apply land_byte; first [exact Hx|exact Hy] | closed_byte] ]).
  all: eexists; split; [reflexivity|].
  all: split; [flatten_trace; reflexivity|].
  all: split; [reflexivity|intro r; reflexivity].
Qed.

Lemma size_setter_run (self : OV7670) (c vstart hstart edge_offset pclk_delay : Z) :
  fault_free (_i2c_device self) ->
  0 <= reg_of self _OV7670_REG_SCALING_XSC < 256 ->
  0 <= reg_of self _OV7670_REG_SCALING_YSC < 256 ->
  0 <= c <= 4 ->
  py_index _window c = Some (vstart, hstart, edge_offset, pclk_delay) ->
  let evs := frame_events c vstart hstart edge_offset pclk_delay
               (reg_of self _OV7670_REG_SCALING_XSC)
               (reg_of self _OV7670_REG_SCALING_YSC) in
  exists d',
    size_setter c self = (Ok tt, with_size (with_device self d') (Some c)) /\
    trace d' = trace (_i2c_device self) ++ evs /\
    faults d' = faults (_i2c_device self) /\
    (forall r, regs d' r = replay (regs (_i2c_device self)) (writes_of evs) r).
Proof.
  intros Hff Hx Hy Hc Hrow evs.
  destruct (frame_control_run self c vstart hstart edge_offset pclk_delay
              Hff Hx Hy Hc Hrow) as (d' & Hrun & Htr & Hfl & Hregs).
  exists d'. split; [|split; [exact Htr|split; [exact Hfl|exact Hregs]]].
  unfold size_setter. rewrite Hrow. unfold bind. rewrite Hrun. reflexivity.
Qed.

Lemma window_row (c : Z) :
  0 <= c <= 4 -> exists row, py_index _window c = Some row.
Proof.
  intro Hc. assert (Hcases : c = 0 \/ c = 1 \/ c = 2 \/ c = 3 \/ c = 4) by lia.
  destruct Hcases as [->|[->|[->|[->| ->]]]]; eexists; reflexivity.
Qed.

(** ** Scaling registers shared by zoom and test pattern *)

Lemma land_1_testbit (p : Z) : (Z.land p 1 =? 0) = negb (Z.testbit p 0).
Proof.
  change 1 with (2 ^ 0). rewrite land_pow2 by lia.
  destruct (Z.testbit p 0); reflexivity.
Qed.

Lemma land_2_testbit (p : Z) : (Z.land p 2 =? 0) = negb (Z.testbit p 1).
Proof.
  change 2 with (2 ^ 1). rewrite land_pow2 by lia.
  destruct (Z.testbit p 1); reflexivity.
Qed.

(** What the test-pattern setter makes of a scaling byte [v], [on] telling
    whether the pattern bit is to be set. *)
Lemma pattern_patch (v : Z) (on : bool) :
  0 <= v < 256 ->
  let v' := if on then Z.lor (Z.land v (Z.lnot 0x80)) 0x80
            else Z.land v (Z.lnot 0x80) in
  0 <= v' < 256 /\ Z.land v' 0x7F = Z.land v 0x7F /\ Z.testbit v' 7 = on.
Proof.
  intros Hv v'. subst v'. destruct on.
  - split; [apply lor_byte; [apply land_byte; exact Hv | lia]|]. split.
    + rewrite Z.land_lor_distr_l, <- Z.land_assoc.
      change (Z.land (Z.lnot 128) 127) with 127. change (Z.land 128 127) with 0.
      apply Z.lor_0_r.
    + rewrite Z.lor_spec. change (Z.testbit 128 7) with true. apply orb_true_r.
  - split; [apply land_byte; exact Hv|]. split.
    + rewrite <- Z.land_assoc. reflexivity.
    + rewrite Z.land_spec. change (Z.testbit (Z.lnot 128) 7) with false.
      apply andb_false_r.
Qed.

(** What frame control makes of a scaling byte [v] for zoom value [z]. *)
Lemma zoom_patch (v z : Z) :
  z = 0x20 \/ z = 0x40 ->
  let v' := Z.lor (Z.land v 0x80) z in
  Z.land v' 0x80 = Z.land v 0x80 /\ Z.land v' 0x7F = z /\
  Z.testbit v' 7 = Z.testbit v 7.
Proof.
  intros Hz v'. subst v'.
  assert (Hz' : Z.land z 0x80 = 0 /\ Z.land z 0x7F = z /\ Z.testbit z 7 = false)
    by (destruct Hz as [-> | ->]; repeat split; reflexivity).
  destruct Hz' as (Hhi & Hlo & Hbit). split; [|split].
  - rewrite Z.land_lor_distr_l, Hhi, Z.lor_0_r, <- Z.land_assoc. reflexivity.
  - rewrite Z.land_lor_distr_l, Hlo, <- Z.land_assoc.
    change (Z.land 128 127) with 0. rewrite Z.land_0_r. reflexivity.
  - rewrite Z.lor_spec, Hbit, orb_false_r, Z.land_spec.
    change (Z.testbit 128 7) with true. apply andb_true_r.
Qed.

Lemma test_pattern_setter_run (self : OV7670) (pattern : Z) :
  fault_free (_i2c_device self) ->
  0 <= reg_of self _OV7670_REG_SCALING_XSC < 256 ->
  0 <= reg_of self _OV7670_REG_SCALING_YSC < 256 ->
  let x := reg_of self _OV7670_REG_SCALING_XSC in
  let y := reg_of self _OV7670_REG_SCALING_YSC in
  let x' := if Z.testbit pattern 0 then Z.lor (Z.land x (Z.lnot 0x80)) 0x80
            else Z.land x (Z.lnot 0x80) in
  let y' := if Z.testbit pattern 1 then Z.lor (Z.land y (Z.lnot 0x80)) 0x80
            else Z.land y (Z.lnot 0x80) in
  test_pattern_setter pattern self =
  (Ok tt,
   with_device self
     (dev_write
        (dev_write
           (dev_read (dev_read (_i2c_device self) _OV7670_REG_SCALING_XSC)
                     _OV7670_REG_SCALING_YSC)
           _OV7670_REG_SCALING_XSC x')
        _OV7670_REG_SCALING_YSC y')).
Proof.
  intros Hff Hx Hy x y x' y'. unfold test_pattern_setter.
  rewrite land_1_testbit, land_2_testbit, !negb_involutive.
  unfold reg_of in *.
  do 4 bus_step ltac:(first
    [ exact Hff | closed_byte
    | apply (pattern_patch _ (Z.testbit pattern 0) Hx)
    | apply (pattern_patch _ (Z.testbit pattern 1) Hy) ]).
  reflexivity.
Qed.

(** C1. Size and test pattern share SCALING_XSC and SCALING_YSC without
    disturbing each other.  From any register state, on a healthy bus:
    the size setter reads both registers, keeps bit 7 of each as read and
    puts the zoom value (0x40 at 1:16, else 0x20) in bits 0-6; the
    test-pattern setter keeps bits 0-6 of each as read and makes bit 7 of
    XSC bit 0 of the pattern, bit 7 of YSC bit 1 of the pattern; so after
    setting the size and then the pattern, bits 0-6 still hold the zoom
    value of the size and the two top bits hold the pattern. *)
Theorem size_and_test_pattern_share_scaling_registers (self : OV7670) (X P : Z) :
  fault_free (_i2c_device self) ->
  0 <= reg_of self _OV7670_REG_SCALING_XSC < 256 ->
  0 <= reg_of self _OV7670_REG_SCALING_YSC < 256 ->
  0 <= X <= 4 ->
  let x := reg_of self _OV7670_REG_SCALING_XSC in
  let y := reg_of self _OV7670_REG_SCALING_YSC in
  let zoom := if X =? OV7670_SIZE_DIV16 then 0x40 else 0x20 in
  let sized := snd (size_setter X self) in
  let patterned := snd (test_pattern_setter P self) in
  let both := snd (test_pattern_setter P sized) in
  (fst (size_setter X self) = Ok tt /\
   read_from _OV7670_REG_SCALING_XSC (emitted self sized) = [x] /\
   read_from _OV7670_REG_SCALING_YSC (emitted self sized) = [y] /\
   Z.land (reg_of sized _OV7670_REG_SCALING_XSC) 0x80 = Z.land x 0x80 /\
   Z.land (reg_of sized _OV7670_REG_SCALING_YSC) 0x80 = Z.land y 0x80 /\
   Z.land (reg_of sized _OV7670_REG_SCALING_XSC) 0x7F = zoom /\
   Z.land (reg_of sized _OV7670_REG_SCALING_YSC) 0x7F = zoom) /\
  (fst (test_pattern_setter P self) = Ok tt /\
   read_from _OV7670_REG_SCALING_XSC (emitted self patterned) = [x] /\
   read_from _OV7670_REG_SCALING_YSC (emitted self patterned) = [y] /\
   Z.land (reg_of patterned _OV7670_REG_SCALING_XSC) 0x7F = Z.land x 0x7F /\
   Z.land (reg_of patterned _OV7670_REG_SCALING_YSC) 0x7F = Z.land y 0x7F /\
   Z.testbit (reg_of patterned _OV7670_REG_SCALING_XSC) 7 = Z.testbit P 0 /\
   Z.testbit (reg_of patterned _OV7670_REG_SCALING_YSC) 7 = Z.testbit P 1) /\
  (fst (test_pattern_setter P sized) = Ok tt /\
   Z.land (reg_of both _OV7670_REG_SCALING_XSC) 0x7F = zoom /\
   Z.land (reg_of both _OV7670_REG_SCALING_YSC) 0x7F = zoom /\
   Z.testbit (reg_of both _OV7670_REG_SCALING_XSC) 7 = Z.testbit P 0 /\
   Z.testbit (reg_of both _OV7670_REG_SCALING_YSC) 7 = Z.testbit P 1).
Proof.
  intros Hff Hx Hy HX x y zoom sized patterned both.
  assert (Hzoom : zoom = 0x20 \/ zoom = 0x40)
    by (subst zoom; destruct (X =? OV7670_SIZE_DIV16); auto).
  destruct (zoom_patch x zoom Hzoom) as (Hx7 & Hxz & _).
  destruct (zoom_patch y zoom Hzoom) as (Hy7 & Hyz & _).
  (* the size setter *)
  destruct (window_row X HX) as ([[[vstart hstart] edge_offset] pclk_delay] & Hrow).
  destruct (size_setter_run self X _ _ _ _ Hff Hx Hy HX Hrow)
    as (d1 & Hrun1 & Htr1 & Hfl1 & Hregs1).
  assert (Hsx : reg_of sized _OV7670_REG_SCALING_XSC = Z.lor (Z.land x 0x80) zoom).
  { subst sized. rewrite Hrun1. unfold reg_of. simpl. rewrite Hregs1. reflexivity. }
  assert (Hsy : reg_of sized _OV7670_REG_SCALING_YSC = Z.lor (Z.land y 0x80) zoom).
  { subst sized. rewrite Hrun1. unfold reg_of. simpl. rewrite Hregs1. reflexivity. }
  assert (Hem1 : emitted self sized =
                 frame_events X vstart hstart edge_offset pclk_delay x y).
  { subst sized. rewrite Hrun1. unfold emitted. simpl. rewrite Htr1.
    apply skipn_exact. }
  (* the test-pattern setter, from the initial state *)
  pose proof (test_pattern_setter_run self P Hff Hx Hy) as Hrun2. cbv zeta in Hrun2.
  destruct (pattern_patch x (Z.testbit P 0) Hx) as (_ & Hpx & Hpx7).
  destruct (pattern_patch y (Z.testbit P 1) Hy) as (_ & Hpy & Hpy7).
  (* the test-pattern setter, after the size setter *)
  assert (Hff1 : fault_free (_i2c_device sized)).
  { subst sized. rewrite Hrun1. simpl. intro n. rewrite Hfl1. apply Hff. }
  assert (Hbx : 0 <= reg_of sized _OV7670_REG_SCALING_XSC < 256).
  { rewrite Hsx. apply lor_byte; [apply land_byte; exact Hx | destruct Hzoom; lia]. }
  assert (Hby : 0 <= reg_of sized _OV7670_REG_SCALING_YSC < 256).
  { rewrite Hsy. apply lor_byte; [apply land_byte; exact Hy | destruct Hzoom; lia]. }
  pose proof (test_pattern_setter_run sized P Hff1 Hbx Hby) as Hrun3. cbv zeta in Hrun3.
  destruct (pattern_patch _ (Z.testbit P 0) Hbx) as (_ & Hqx & Hqx7).
  destruct (pattern_patch _ (Z.testbit P 1) Hby) as (_ & Hqy & Hqy7).
  split; [|split].
  - rewrite Hem1, Hsx, Hsy. subst sized. rewrite Hrun1.
    repeat split; assumption.
  - subst patterned. rewrite Hrun2. unfold emitted, reg_of. cbn [fst snd].
    split; [reflexivity|].
    split; [simpl; rewrite <- !app_assoc; rewrite skipn_exact; reflexivity|].
    split; [simpl; rewrite <- !app_assoc; rewrite skipn_exact; reflexivity|].
    repeat split; assumption.
  - subst both. rewrite Hrun3. unfold reg_of. cbn [fst snd].
    split; [reflexivity|].
    split; [etransitivity; [exact Hqx | rewrite Hsx; exact Hxz]|].
    split; [etransitivity; [exact Hqy | rewrite Hsy; exact Hyz]|].
    split; assumption.
Qed.

(** ** Frame geometry *)

(** C4. For every size class, with [(vstart, hstart, edge_offset,
    pclk_delay)] its row of [_window], frame control takes
    [vstop = vstart + 480] and [hstop = (hstart + 640) mod 784] and writes
    HSTART = hstart >> 3, HSTOP = hstop >> 3,
    HREF = (edge_offset << 6) | ((hstop & 7) << 3) | (hstart & 7),
    VSTART = vstart >> 2, VSTOP = vstop >> 2 and
    VREF = ((vstop & 3) << 2) | (vstart & 3), each once; the row of 1:4 has
    hstart = 186, whose hstop wraps around to 42. *)
Theorem frame_control_window_registers
    (self : OV7670) (c vstart hstart edge_offset pclk_delay : Z) :
  fault_free (_i2c_device self) ->
  0 <= reg_of self _OV7670_REG_SCALING_XSC < 256 ->
  0 <= reg_of self _OV7670_REG_SCALING_YSC < 256 ->
  0 <= c <= 4 ->
  py_index _window c = Some (vstart, hstart, edge_offset, pclk_delay) ->
  let vstop := vstart + 480 in
  let hstop := (hstart + 640) mod 784 in
  let href := Z.lor (Z.lor (Z.shiftl edge_offset 6) (Z.shiftl (Z.land hstop 7) 3))
                    (Z.land hstart 7) in
  let vref := Z.lor (Z.shiftl (Z.land vstop 3) 2) (Z.land vstart 3) in
  let after := snd (size_setter c self) in
  let log := emitted self after in
  fst (_frame_control c vstart hstart edge_offset pclk_delay self) = Ok tt /\
  fst (size_setter c self) = Ok tt /\
  (written _OV7670_REG_HSTART log = [Z.shiftr hstart 3] /\
   written _OV7670_REG_HSTOP log = [Z.shiftr hstop 3] /\
   written _OV7670_REG_HREF log = [href] /\
   written _OV7670_REG_VSTART log = [Z.shiftr vstart 2] /\
   written _OV7670_REG_VSTOP log = [Z.shiftr vstop 2] /\
   written _OV7670_REG_VREF log = [vref]) /\
  (reg_of after _OV7670_REG_HSTART = Z.shiftr hstart 3 /\
   reg_of after _OV7670_REG_HSTOP = Z.shiftr hstop 3 /\
   reg_of after _OV7670_REG_HREF = href /\
   reg_of after _OV7670_REG_VSTART = Z.shiftr vstart 2 /\
   reg_of after _OV7670_REG_VSTOP = Z.shiftr vstop 2 /\
   reg_of after _OV7670_REG_VREF = vref) /\
  (c = OV7670_SIZE_DIV4 -> hstart = 186 /\ hstop = 42).
Proof.
  intros Hff Hx Hy Hc Hrow vstop hstop href vref after log.
  destruct (frame_control_run self c _ _ _ _ Hff Hx Hy Hc Hrow)
    as (d0 & Hrun0 & _).
  destruct (size_setter_run self c _ _ _ _ Hff Hx Hy Hc Hrow)
    as (d' & Hrun & Htr & _ & Hregs).
  assert (Hlog : log = frame_events c vstart hstart edge_offset pclk_delay
                         (reg_of self _OV7670_REG_SCALING_XSC)
                         (reg_of self _OV7670_REG_SCALING_YSC)).
  { subst log after. rewrite Hrun. unfold emitted. simpl. rewrite Htr.
    apply skipn_exact. }
  split; [rewrite Hrun0; reflexivity|].
  split; [rewrite Hrun; reflexivity|].
  split; [rewrite Hlog; repeat split|].
  split.
  - subst after. rewrite Hrun. unfold reg_of. simpl.
    rewrite !Hregs. repeat split.
  - intros ->. vm_compute in Hrow. injection Hrow as <- <- <- <-.
    split; reflexivity.
Qed.

(** C5. For every size class [c], frame control writes COM14 = 0x18 + c
    when [c] is above 1:1 and 0 otherwise, SCALING_DCWCTR =
    min(c, 1:8) * 0x11, the same ratio in both nibbles, and
    SCALING_PCLK_DIV = 0xF0 + c when [c] is above 1:1 and 0x08
    otherwise. *)
Theorem frame_control_clock_and_downsample (self : OV7670) (c : Z) :
  fault_free (_i2c_device self) ->
  0 <= reg_of self _OV7670_REG_SCALING_XSC < 256 ->
  0 <= reg_of self _OV7670_REG_SCALING_YSC < 256 ->
  0 <= c <= 4 ->
  let ratio := Z.min c OV7670_SIZE_DIV8 in
  let after := snd (size_setter c self) in
  let log := emitted self after in
  fst (size_setter c self) = Ok tt /\
  written _OV7670_REG_COM14 log
    = [if OV7670_SIZE_DIV1 <? c then 0x18 + c else 0] /\
  written _OV7670_REG_SCALING_DCWCTR log = [ratio * 0x11] /\
  written _OV7670_REG_SCALING_PCLK_DIV log
    = [if OV7670_SIZE_DIV1 <? c then 0xF0 + c else 0x08] /\
  reg_of after _OV7670_REG_COM14
    = (if OV7670_SIZE_DIV1 <? c then 0x18 + c else 0) /\
  reg_of after _OV7670_REG_SCALING_DCWCTR = ratio * 0x11 /\
  reg_of after _OV7670_REG_SCALING_PCLK_DIV
    = (if OV7670_SIZE_DIV1 <? c then 0xF0 + c else 0x08) /\
  ratio * 0x11 = Z.lor (Z.shiftl ratio 4) ratio.
Proof.
  intros Hff Hx Hy Hc ratio after log.
  destruct (window_row c Hc) as ([[[vstart hstart] edge_offset] pclk_delay] & Hrow).
  destruct (size_setter_run self c _ _ _ _ Hff Hx Hy Hc Hrow)
    as (d' & Hrun & Htr & _ & Hregs).
  assert (Hlog : log = frame_events c vstart hstart edge_offset pclk_delay
                         (reg_of self _OV7670_REG_SCALING_XSC)
                         (reg_of self _OV7670_REG_SCALING_YSC)).
  { subst log after. rewrite Hrun. unfold emitted. simpl. rewrite Htr.
    apply skipn_exact. }
  split; [rewrite Hrun; reflexivity|].
  rewrite Hlog. subst after. rewrite Hrun. unfold reg_of. simpl _i2c_device.
  rewrite !Hregs.
  do 6 (split; [reflexivity|]).
  subst ratio.
  assert (Hcases : c = 0 \/ c = 1 \/ c = 2 \/ c = 3 \/ c = 4) by lia.
  destruct Hcases as [->|[->|[->|[->| ->]]]]; reflexivity.
Qed.

(** C8. For every size class [c], once the size setter has run with [c]
    the width getter returns 640 >> c and the height getter 480 >> c:
    160 x 120 at 1:4, 40 x 30 at 1:16. *)
Theorem width_height_after_size_setter (self : OV7670) (c : Z) :
  fault_free (_i2c_device self) ->
  0 <= reg_of self _OV7670_REG_SCALING_XSC < 256 ->
  0 <= reg_of self _OV7670_REG_SCALING_YSC < 256 ->
  0 <= c <= 4 ->
  let after := snd (size_setter c self) in
  fst (size_setter c self) = Ok tt /\
  size after = Some c /\
  width after = Ok (Z.shiftr 640 c) /\
  height after = Ok (Z.shiftr 480 c) /\
  (c = OV7670_SIZE_DIV4 -> width after = Ok 160 /\ height after = Ok 120) /\
  (c = OV7670_SIZE_DIV16 -> width after = Ok 40 /\ height after = Ok 30).
Proof.
  intros Hff Hx Hy Hc after.
  destruct (window_row c Hc) as ([[[vstart hstart] edge_offset] pclk_delay] & Hrow).
  destruct (size_setter_run self c _ _ _ _ Hff Hx Hy Hc Hrow)
    as (d' & Hrun & _).
  assert (Hneg : (c <? 0) = false) by (apply Z.ltb_ge; lia).
  assert (Hw : width after = Ok (Z.shiftr 640 c)).
  { subst after. rewrite Hrun. unfold width. simpl. rewrite Hneg. reflexivity. }
  assert (Hh : height after = Ok (Z.shiftr 480 c)).
  { subst after. rewrite Hrun. unfold height. simpl. rewrite Hneg. reflexivity. }
  split; [rewrite Hrun; reflexivity|].
  split; [subst after; rewrite Hrun; reflexivity|].
  split; [exact Hw|]. split; [exact Hh|].
  rewrite Hw, Hh. split; intros ->; split; reflexivity.
Qed.

(** ** Night mode *)

Lemma night_setter_run (self : OV7670) (value : Z) :
  fault_free (_i2c_device self) ->
  0 <= reg_of self _OV7670_REG_COM11 < 256 ->
  0 <= value < 256 ->
  let b := reg_of self _OV7670_REG_COM11 in
  night_setter value self =
  (Ok tt,
   with_night
     (with_device self
        (dev_write (dev_read (_i2c_device self) _OV7670_REG_COM11)
                   _OV7670_REG_COM11 (Z.lor (Z.land b 0x1F) value)))
     value).
Proof.
  intros Hff Hb Hv b. unfold night_setter.
  do 2 bus_step ltac:(first
    [ exact Hff | closed_byte
    | apply lor_byte; [apply land_byte; exact Hb | exact Hv] ]).
  reflexivity.
Qed.

(** C6. For each of the four night modes [m] and every byte [b] held by
    COM11, the night setter reads COM11 once and writes back exactly
    [(b & 0x1F) | m]: the low five bits are the ones read, the top three
    bits are those of [m], and the night getter returns [m] afterwards. *)
Theorem night_setter_masks_top_bits (self : OV7670) (m : Z) :
  fault_free (_i2c_device self) ->
  0 <= reg_of self _OV7670_REG_COM11 < 256 ->
  In m [OV7670_NIGHT_MODE_OFF; OV7670_NIGHT_MODE_2;
        OV7670_NIGHT_MODE_4; OV7670_NIGHT_MODE_8] ->
  let b := reg_of self _OV7670_REG_COM11 in
  let after := snd (night_setter m self) in
  fst (night_setter m self) = Ok tt /\
  emitted self after =
    [EvRead _OV7670_REG_COM11 b;
     EvWrite _OV7670_REG_COM11 (Z.lor (Z.land b 0x1F) m)] /\
  reg_of after _OV7670_REG_COM11 = Z.lor (Z.land b 0x1F) m /\
  Z.land (reg_of after _OV7670_REG_COM11) 0x1F = Z.land b 0x1F /\
  Z.land (reg_of after _OV7670_REG_COM11) 0xE0 = m /\
  night after = m.
Proof.
  intros Hff Hb Hm b after.
  assert (Hmb : 0 <= m < 256 /\ Z.land m 0x1F = 0 /\ Z.land m 0xE0 = m).
  { simpl in Hm. destruct Hm as [<-|[<-|[<-|[<-|[]]]]]; vm_compute; intuition congruence. }
  destruct Hmb as (Hrange & Hlow & Hhigh).
  assert (Hreg : reg_of after _OV7670_REG_COM11 = Z.lor (Z.land b 0x1F) m).
  { subst after. rewrite night_setter_run by assumption. reflexivity. }
  subst after. rewrite Hreg. rewrite night_setter_run by assumption.
  repeat split.
  - unfold emitted. simpl. rewrite <- app_assoc. apply skipn_exact.
  - rewrite Z.land_lor_distr_l, Hlow, Z.lor_0_r, <- Z.land_assoc. reflexivity.
  - rewrite Z.land_lor_distr_l, Hhigh, <- Z.land_assoc. simpl (Z.land 31 224).
    rewrite Z.land_0_r. reflexivity.
Qed.


(** ** Mirror and flip *)

Lemma set_bit_spec (b n i : Z) :
  0 <= n -> 0 <= i ->
  Z.testbit (Z.lor b (2 ^ n)) i = if i =? n then true else Z.testbit b i.
Proof.
  intros Hn Hi. rewrite Z.lor_spec, Z.pow2_bits_eqb by lia.
  rewrite (Z.eqb_sym n i). destruct (i =? n).
  - apply orb_true_r.
  - apply orb_false_r.
Qed.

Lemma clear_bit_spec (b n i : Z) :
  0 <= n -> 0 <= i ->
  Z.testbit (Z.land b (Z.lnot (2 ^ n))) i = if i =? n then false else Z.testbit b i.
Proof.
  intros Hn Hi. rewrite Z.land_spec, Z.lnot_spec, Z.pow2_bits_eqb by lia.
  rewrite (Z.eqb_sym n i). destruct (i =? n); simpl.
  - apply andb_false_r.
  - apply andb_true_r.
Qed.

(** The byte [_set_flip] writes back for the byte [b] it read. *)
Lemma flip_patch (b : Z) (fx fy : bool) :
  0 <= b < 256 ->
  let v := if fx then Z.lor b _OV7670_MVFP_MIRROR
           else Z.land b (Z.lnot _OV7670_MVFP_MIRROR) in
  let v' := if fy then Z.lor v _OV7670_MVFP_VFLIP
            else Z.land v (Z.lnot _OV7670_MVFP_VFLIP) in
  0 <= v' < 256 /\
  forall i, 0 <= i ->
    Z.testbit v' i = if i =? 4 then fy else if i =? 5 then fx else Z.testbit b i.
Proof.
  intros Hb v v'.
  assert (Hv : 0 <= v < 256).
  { subst v. destruct fx; [apply lor_byte; [exact Hb | closed_byte]
                          | apply land_byte; exact Hb]. }
  split.
  - subst v'. destruct fy; [apply lor_byte; [exact Hv | closed_byte]
                           | apply land_byte; exact Hv].
  - intros i Hi. subst v' v.
    change _OV7670_MVFP_MIRROR with (2 ^ 5). change _OV7670_MVFP_VFLIP with (2 ^ 4).
    destruct fy, fx;
      rewrite ?set_bit_spec, ?clear_bit_spec, ?set_bit_spec, ?clear_bit_spec by lia;
      destruct (Z.eqb_spec i 4); destruct (Z.eqb_spec i 5); try reflexivity; lia.
Qed.

Lemma set_flip_run (self : OV7670) :
  fault_free (_i2c_device self) ->
  0 <= reg_of self _OV7670_REG_MVFP < 256 ->
  let b := reg_of self _OV7670_REG_MVFP in
  let v := if _flip_x self then Z.lor b _OV7670_MVFP_MIRROR
           else Z.land b (Z.lnot _OV7670_MVFP_MIRROR) in
  let v' := if _flip_y self then Z.lor v _OV7670_MVFP_VFLIP
            else Z.land v (Z.lnot _OV7670_MVFP_VFLIP) in
  _set_flip self =
  (Ok tt,
   with_device self
     (dev_write (dev_read (_i2c_device self) _OV7670_REG_MVFP)
                _OV7670_REG_MVFP v')).
Proof.
  intros Hff Hb b v v'. unfold _set_flip.
  bus_step ltac:(first [exact Hff | closed_byte]).
  bus_step ltac:(first [exact Hff | closed_byte
                       | apply (flip_patch _ (_flip_x self) (_flip_y self) Hb)]).
  reflexivity.
Qed.

(** C7, as amended.  For every byte [b] held by MVFP and every pair of
    flip flags, the flip operation reads MVFP once and writes it once; in
    the byte written the mirror bit (0x20) equals [flip_x], the vflip bit
    (0x10) equals [flip_y], and every other bit is the one read.  Setting
    [flip_x] while [flip_y] is false changes at most the mirror bit
    provided the vflip bit of [b] was clear. *)
Theorem set_flip_touches_only_flip_bits (self : OV7670) (fx fy : bool) :
  fault_free (_i2c_device self) ->
  0 <= reg_of self _OV7670_REG_MVFP < 256 ->
  let b := reg_of self _OV7670_REG_MVFP in
  let flagged := with_flip_y (with_flip_x self fx) fy in
  let after := snd (_set_flip flagged) in
  let b' := reg_of after _OV7670_REG_MVFP in
  fst (_set_flip flagged) = Ok tt /\
  emitted self after
    = [EvRead _OV7670_REG_MVFP b; EvWrite _OV7670_REG_MVFP b'] /\
  Z.testbit b' 5 = fx /\
  Z.testbit b' 4 = fy /\
  (forall i, 0 <= i -> i <> 5 -> i <> 4 -> Z.testbit b' i = Z.testbit b i) /\
  (_flip_y self = false -> Z.testbit b 4 = false ->
   let mirrored := snd (flip_x_setter 1 self) in
   fst (flip_x_setter 1 self) = Ok tt /\
   Z.testbit (reg_of mirrored _OV7670_REG_MVFP) 5 = true /\
   forall i, 0 <= i -> i <> 5 ->
     Z.testbit (reg_of mirrored _OV7670_REG_MVFP) i = Z.testbit b i).
Proof.
  intros Hff Hb b flagged after b'.
  pose proof (set_flip_run flagged Hff Hb) as Hrun. cbv zeta in Hrun.
  destruct (flip_patch b fx fy Hb) as (_ & Hbits).
  assert (Hb' : forall i, 0 <= i ->
            Z.testbit b' i = if i =? 4 then fy else if i =? 5 then fx else Z.testbit b i).
  { intros i Hi. subst b' after. rewrite Hrun. exact (Hbits i Hi). }
  split; [rewrite Hrun; reflexivity|].
  split.
  { subst b' after. rewrite Hrun. unfold emitted. simpl.
    rewrite <- app_assoc. apply skipn_exact. }
  split; [apply (Hb' 5); lia|].
  split; [apply (Hb' 4); lia|].
  split.
  { intros i Hi H5 H4. rewrite Hb' by exact Hi.
    destruct (Z.eqb_spec i 4); [lia|]. destruct (Z.eqb_spec i 5); [lia|]. reflexivity. }
  intros Hfy Hclear mirrored.
  assert (Hrun' : flip_x_setter 1 self = _set_flip (with_flip_x self true))
    by reflexivity.
  pose proof (set_flip_run (with_flip_x self true) Hff Hb) as Hrun1.
  cbv zeta in Hrun1. simpl _flip_x in Hrun1. simpl _flip_y in Hrun1.
  rewrite Hfy in Hrun1.
  destruct (flip_patch b true false Hb) as (_ & Hbits1).
  subst mirrored. rewrite Hrun', Hrun1.
  split; [reflexivity|]. split; [apply (Hbits1 5); lia|].
  intros i Hi H5. unfold reg_of. cbn [snd].
  etransitivity; [apply (Hbits1 i Hi)|].
  destruct (Z.eqb_spec i 4) as [->|_]; [symmetry; exact Hclear|].
  destruct (Z.eqb_spec i 5); [lia|reflexivity].
Qed.

(** C7 as stated fails: with the vflip bit set in MVFP (0x17) and
    [flip_y] false, setting [flip_x] writes 0x27; bit 4 changed along with
    bit 5. *)
Lemma flip_x_setter_changes_two_bits :
  fault_free (_i2c_device stale_vflip) /\
  _flip_y stale_vflip = false /\
  reg_of stale_vflip _OV7670_REG_MVFP = 0x17 /\
  fst (flip_x_setter 1 stale_vflip) = Ok tt /\
  reg_of (snd (flip_x_setter 1 stale_vflip)) _OV7670_REG_MVFP = 0x27 /\
  Z.lxor 0x17 0x27 = Z.lor _OV7670_MVFP_MIRROR _OV7670_MVFP_VFLIP /\
  ~ (forall i, 0 <= i -> i <> 5 ->
       Z.testbit (reg_of (snd (flip_x_setter 1 stale_vflip)) _OV7670_REG_MVFP) i
       = Z.testbit (reg_of stale_vflip _OV7670_REG_MVFP) i).
Proof.
  split; [intro n; reflexivity|].
  do 5 (split; [reflexivity|]).
  intro H. specialize (H 4 ltac:(lia) ltac:(lia)). vm_compute in H. discriminate.
Qed.

(** The register and the flag can come to disagree through the public
    setters alone: the flip setters store their flag before the bus
    transaction, so a failed [flip_y = False] leaves [_flip_y] false and
    the vflip bit set, and the next [flip_x = True] changes two bits. *)
Example flip_flag_and_register_can_disagree :
  fst (flip_y_setter 1 (new_OV7670 flip_dev)) = Ok tt /\
  reg_of flipped_y _OV7670_REG_MVFP = 0x17 /\
  fst (flip_y_setter 0 flipped_y) = Raise OSError /\
  flip_y unflipped_y_failed = false /\
  reg_of unflipped_y_failed _OV7670_REG_MVFP = 0x17 /\
  fst (flip_x_setter 1 unflipped_y_failed) = Ok tt /\
  reg_of flipped_x _OV7670_REG_MVFP = 0x27.
Proof. repeat split; vm_compute; reflexivity. Qed.

(** ** What every method keeps, whatever the bus does *)

Lemma same_attrs_refl (s : OV7670) : same_attrs s s.
Proof. repeat split. Qed.

Lemma same_attrs_trans (s1 s2 s3 : OV7670) :
  same_attrs s1 s2 -> same_attrs s2 s3 -> same_attrs s1 s3.
Proof.
  unfold same_attrs. intros (A1 & A2 & A3 & A4 & A5 & A6) (B1 & B2 & B3 & B4 & B5 & B6).
  repeat split; congruence.
Qed.

Lemma bus_only_ret {A} (a : A) : bus_only (ret a).
Proof. intro self. apply same_attrs_refl. Qed.

Lemma bus_only_raise {A} (e : exn) : bus_only (@raise A e).
Proof. intro self. apply same_attrs_refl. Qed.

Lemma bus_only_write (reg value : Z) : bus_only (_write_register reg value).
Proof.
  intro self. unfold _write_register.
  destruct (negb (is_byte reg)); [apply same_attrs_refl|].
  destruct (negb (is_byte value)); [apply same_attrs_refl|].
  destruct (faults _ _); repeat split.
Qed.

Lemma bus_only_read (reg : Z) : bus_only (_read_register reg).
Proof.
  intro self. unfold _read_register.
  destruct (negb (is_byte reg)); [apply same_attrs_refl|].
  destruct (faults _ _); repeat split.
Qed.

Lemma bus_only_bind {A B} (m : M A) (k : A -> M B) :
  bus_only m -> (forall a, bus_only (k a)) -> bus_only (bind m k).
Proof.
  intros Hm Hk self. unfold bind. specialize (Hm self).
  destruct (m self) as [[a|e] s1]; simpl in *.
  - eapply same_attrs_trans; [exact Hm | apply Hk].
  - exact Hm.
Qed.

Ltac bus_only_tac :=
  cbv zeta;
  repeat first
    [ apply bus_only_write | apply bus_only_read | apply bus_only_ret
    | apply bus_only_raise
    | apply bus_only_bind; [|intro] ].

Lemma bus_only_frame_control (c vstart hstart edge_offset pclk_delay : Z) :
  bus_only (_frame_control c vstart hstart edge_offset pclk_delay).
Proof. unfold _frame_control. bus_only_tac. Qed.

Lemma bus_only_test_pattern_setter (pattern : Z) :
  bus_only (test_pattern_setter pattern).
Proof. unfold test_pattern_setter. bus_only_tac. Qed.

(** ** Bus faults surface as [OSError] *)

Lemma fault_sound_ret {A} (a : A) : fault_sound (ret a).
Proof. intro self. simpl. repeat split; [lia | intros n Hn; lia]. Qed.

Lemma fault_sound_raise {A} (e : exn) : fault_sound (@raise A e).
Proof. intro self. simpl. repeat split; [lia | intros n Hn; lia]. Qed.

Lemma fault_sound_assign (f : OV7670 -> OV7670) :
  (forall s, _i2c_device (f s) = _i2c_device s) -> fault_sound (assign f).
Proof.
  intros Hf self. simpl. rewrite Hf. repeat split; [lia | intros n Hn; lia].
Qed.

Lemma fault_sound_write (reg value : Z) : fault_sound (_write_register reg value).
Proof.
  intro self. unfold _write_register.
  destruct (negb (is_byte reg)); [simpl; repeat split; [lia | intros n Hn; lia]|].
  destruct (negb (is_byte value)); [simpl; repeat split; [lia | intros n Hn; lia]|].
  destruct (faults _ _) eqn:Hf; simpl.
  - repeat split; lia.
  - repeat split; [lia|]. intros n Hn Hfault.
    assert (n = ticks (_i2c_device self)) by lia. congruence.
Qed.

Lemma fault_sound_read (reg : Z) : fault_sound (_read_register reg).
Proof.
  intro self. unfold _read_register.
  destruct (negb (is_byte reg)); [simpl; repeat split; [lia | intros n Hn; lia]|].
  destruct (faults _ _) eqn:Hf; simpl.
  - repeat split; lia.
  - repeat split; [lia|]. intros n Hn Hfault.
    assert (n = ticks (_i2c_device self)) by lia. congruence.
Qed.

Lemma fault_sound_bind {A B} (m : M A) (k : A -> M B) :
  fault_sound m -> (forall a, fault_sound (k a)) -> fault_sound (bind m k).
Proof.
  intros Hm Hk self. unfold bind.
  destruct (Hm self) as (Hf1 & Ht1 & Hp1).
  destruct (m self) as [[a|e] s1] eqn:Hrun; simpl in *.
  - destruct (Hk a s1) as (Hf2 & Ht2 & Hp2). simpl in *.
    split; [congruence|]. split; [lia|].
    intros n Hn Hfault.
    destruct (Nat.lt_ge_cases n (ticks (_i2c_device s1))) as [Hlt|Hge].
    + specialize (Hp1 n ltac:(lia) Hfault). discriminate.
    + apply (Hp2 n); [lia | rewrite Hf1; exact Hfault].
  - split; [exact Hf1|]. split; [exact Ht1|].
    intros n Hn Hfault. specialize (Hp1 n Hn Hfault). congruence.
Qed.

Ltac fault_sound_tac :=
  cbv zeta;
  repeat first
    [ apply fault_sound_write | apply fault_sound_read | apply fault_sound_ret
    | apply fault_sound_raise
    | apply fault_sound_assign; intro; reflexivity
    | apply fault_sound_bind; [|intro] ].

Lemma fault_sound_size_setter (value : Z) : fault_sound (size_setter value).
Proof.
  unfold size_setter.
  destruct (py_index _window value) as [[[[vstart hstart] edge_offset] pclk_delay]|];
    [unfold _frame_control|]; fault_sound_tac.
Qed.

Lemma fault_sound_night_setter (value : Z) : fault_sound (night_setter value).
Proof. unfold night_setter. fault_sound_tac. Qed.

(** A setter that ends by storing its attribute leaves the attributes
    alone when the bus work before the store raises. *)
Lemma raise_before_store {A} (m : M A) (f : OV7670 -> OV7670) (self : OV7670) (e : exn) :
  bus_only m ->
  fst (bind m (fun _ => assign f) self) = Raise e ->
  same_attrs self (snd (bind m (fun _ => assign f) self)).
Proof.
  intros Hm. unfold bind, assign. specialize (Hm self).
  destruct (m self) as [[a|e'] s1]; simpl in *.
  - discriminate.
  - intros _. exact Hm.
Qed.

(** ** Setters and bus failures *)

(** C9. The size and night setters store their attribute after all their
    register transactions: whenever one of them raises, [_size]
    (respectively [_night]) is what it was, and the getter returns the
    value of before the call; and a transaction of the call that the bus
    fails makes the call raise [OSError]. *)
Theorem setters_keep_state_on_bus_failure (self : OV7670) (value : Z) :
  (forall e, fst (size_setter value self) = Raise e ->
             size (snd (size_setter value self)) = size self) /\
  (forall e, fst (night_setter value self) = Raise e ->
             night (snd (night_setter value self)) = night self) /\
  (forall n,
     (ticks (_i2c_device self) <= n
      < ticks (_i2c_device (snd (size_setter value self))))%nat ->
     faults (_i2c_device self) n = true ->
     fst (size_setter value self) = Raise OSError /\
     size (snd (size_setter value self)) = size self) /\
  (forall n,
     (ticks (_i2c_device self) <= n
      < ticks (_i2c_device (snd (night_setter value self))))%nat ->
     faults (_i2c_device self) n = true ->
     fst (night_setter value self) = Raise OSError /\
     night (snd (night_setter value self)) = night self).
Proof.
  assert (Hsize : forall e, fst (size_setter value self) = Raise e ->
                            size (snd (size_setter value self)) = size self).
  { intros e. unfold size_setter.
    destruct (py_index _window value) as [[[[vstart hstart] edge_offset] pclk_delay]|].
    - intro Hraise.
      apply (raise_before_store _ _ _ _ (bus_only_frame_control _ _ _ _ _)) in Hraise.
      apply Hraise.
    - reflexivity. }
  assert (Hnight : forall e, fst (night_setter value self) = Raise e ->
                             night (snd (night_setter value self)) = night self).
  { intros e. unfold night_setter, bind, assign.
    pose proof (bus_only_read _OV7670_REG_COM11 self) as Hr.
    destruct (_read_register _OV7670_REG_COM11 self) as [[b|e1] s1]; simpl in *.
    - pose proof (bus_only_write _OV7670_REG_COM11 (Z.lor (Z.land b 31) value) s1) as Hw.
      destruct (_write_register _ _ s1) as [[u|e2] s2]; simpl in *.
      + discriminate.
      + intros _. unfold night.
        destruct Hr as (_ & _ & _ & _ & _ & Hr). destruct Hw as (_ & _ & _ & _ & _ & Hw).
        congruence.
    - intros _. apply Hr. }
  split; [exact Hsize|]. split; [exact Hnight|]. split.
  - intros n Hn Hfault.
    destruct (fault_sound_size_setter value self) as (_ & _ & Hp).
    specialize (Hp n Hn Hfault). split; [exact Hp | exact (Hsize _ Hp)].
  - intros n Hn Hfault.
    destruct (fault_sound_night_setter value self) as (_ & _ & Hp).
    specialize (Hp n Hn Hfault). split; [exact Hp | exact (Hnight _ Hp)].
Qed.

(** On [flaky_camera] the fourth transaction of the size setter fails, on
    [flaky_camera_late] the first of the night setter: both calls raise
    [OSError] and the getters return what they returned before. *)
Lemma setters_keep_state_on_bus_failure_witness :
  (fst (size_setter OV7670_SIZE_DIV16 flaky_camera) = Raise OSError /\
   size (snd (size_setter OV7670_SIZE_DIV16 flaky_camera))
     = Some OV7670_SIZE_DIV2) /\
  (fst (night_setter OV7670_NIGHT_MODE_8 flaky_camera_late) = Raise OSError /\
   night (snd (night_setter OV7670_NIGHT_MODE_8 flaky_camera_late))
     = OV7670_NIGHT_MODE_2).
Proof.
  split.
  - destruct (setters_keep_state_on_bus_failure flaky_camera OV7670_SIZE_DIV16)
      as (_ & _ & H & _).
    apply (H 3%nat).
    + vm_compute. split; repeat constructor.
    + reflexivity.
  - destruct (setters_keep_state_on_bus_failure flaky_camera_late OV7670_NIGHT_MODE_8)
      as (_ & _ & _ & H).
    apply (H 3%nat).
    + vm_compute. split; repeat constructor.
    + reflexivity.
Defined.

(** ** The test-pattern attribute *)

(** C2 fails on the code: the test-pattern setter never assigns
    [_test_pattern], so the getter keeps returning what it returned before
    the call; on the camera as constructed, setting the colour-bar pattern
    turns bit 7 of SCALING_YSC on and the getter still returns [None]. *)
Theorem test_pattern_setter_does_not_store :
  (forall pattern self,
     test_pattern (snd (test_pattern_setter pattern self)) = test_pattern self) /\
  test_pattern fresh_camera = None /\
  fst (test_pattern_setter OV7670_TEST_PATTERN_COLOR_BAR fresh_camera) = Ok tt /\
  Z.testbit
    (reg_of (snd (test_pattern_setter OV7670_TEST_PATTERN_COLOR_BAR fresh_camera))
            _OV7670_REG_SCALING_YSC) 7 = true /\
  test_pattern (snd (test_pattern_setter OV7670_TEST_PATTERN_COLOR_BAR fresh_camera))
    = None /\
  test_pattern (snd (test_pattern_setter OV7670_TEST_PATTERN_COLOR_BAR fresh_camera))
    <> Some OV7670_TEST_PATTERN_COLOR_BAR.
Proof.
  split.
  - intros pattern self. apply (bus_only_test_pattern_setter pattern self).
  - repeat split; try (vm_compute; reflexivity). vm_compute. discriminate.
Qed.

(** ** Register lists *)

Lemma pair_induction (P : list Z -> Prop) :
  P [] -> (forall x, P [x]) ->
  (forall x y l, P l -> P (x :: y :: l)) ->
  forall l, P l.
Proof.
  intros H0 H1 H2 l.
  assert (H : P l /\ forall x, P (x :: l)).
  { induction l as [|a l [IHl IHl']].
    - split; [exact H0 | exact H1].
    - split; [apply IHl' | intro x; apply H2; exact IHl]. }
  apply H.
Qed.

Lemma trace_dev_write_all (ws : list (Z * Z)) (d : I2CDevice) :
  trace (dev_write_all d ws) = trace d ++ write_events ws.
Proof.
  revert d. induction ws as [|[r v] ws IH]; intro d; simpl.
  - symmetry. apply app_nil_r.
  - unfold dev_write_all in *. simpl. rewrite IH. simpl.
    rewrite <- app_assoc. reflexivity.
Qed.

Lemma faults_dev_write_all (ws : list (Z * Z)) (d : I2CDevice) :
  faults (dev_write_all d ws) = faults d.
Proof.
  revert d. induction ws as [|[r v] ws IH]; intro d; simpl.
  - reflexivity.
  - unfold dev_write_all in *. simpl. rewrite IH. reflexivity.
Qed.

Lemma regs_dev_write_all (ws : list (Z * Z)) (d : I2CDevice) :
  regs (dev_write_all d ws) = replay (regs d) ws.
Proof.
  revert d. induction ws as [|[r v] ws IH]; intro d; simpl.
  - reflexivity.
  - unfold dev_write_all, replay in *. simpl. rewrite IH. reflexivity.
Qed.

Lemma writes_of_write_events (ws : list (Z * Z)) : writes_of (write_events ws) = ws.
Proof.
  induction ws as [|[r v] ws IH]; simpl; [reflexivity|].
  unfold writes_of, write_events in *. simpl. rewrite IH. reflexivity.
Qed.

Lemma write_list_run (reg_list : list Z) :
  forall self,
    fault_free (_i2c_device self) ->
    forallb is_byte reg_list = true ->
    Nat.even (length reg_list) = true ->
    _write_list reg_list self =
    (Ok tt, with_device self (dev_write_all (_i2c_device self) (pairs reg_list))).
Proof.
  induction reg_list as [|x|x y l IH] using pair_induction; intros self Hff Hbytes Heven.
  - destruct self; reflexivity.
  - discriminate.
  - simpl in Hbytes. apply andb_true_iff in Hbytes as [Hx Hbytes].
    apply andb_true_iff in Hbytes as [Hy Hbytes].
    apply is_byte_true in Hx, Hy.
    cbn [_write_list]. unfold bind.
    rewrite write_register_ok by assumption.
    rewrite IH by assumption. reflexivity.
Qed.

Lemma colorspace_setter_run (self : OV7670) (c : Z) :
  fault_free (_i2c_device self) ->
  colorspace_setter c self =
  (Ok tt,
   with_device (with_colorspace self (Some c))
     (dev_write_all (_i2c_device self)
        (pairs (if c =? OV7670_COLOR_RGB then _OV7670_rgb else _OV7670_yuv)))).
Proof.
  intro Hff. unfold colorspace_setter, bind, assign.
  rewrite write_list_run; [reflexivity | exact Hff | | ];
    destruct (c =? OV7670_COLOR_RGB); reflexivity.
Qed.

(** C10. The colorspace setter validates nothing: for every integer [c]
    it stores [c], writes the RGB565 list when [c] is [OV7670_COLOR_RGB]
    and the YUV list for any other [c], and the getter returns [c]
    afterwards. *)
Theorem colorspace_setter_no_validation (self : OV7670) (c : Z) :
  fault_free (_i2c_device self) ->
  let after := snd (colorspace_setter c self) in
  fst (colorspace_setter c self) = Ok tt /\
  colorspace after = Some c /\
  emitted self after
    = write_events (pairs (if c =? OV7670_COLOR_RGB then _OV7670_rgb else _OV7670_yuv)) /\
  (writes_of (emitted self after) = pairs _OV7670_rgb <-> c = OV7670_COLOR_RGB) /\
  (writes_of (emitted self after) = pairs _OV7670_yuv <-> c <> OV7670_COLOR_RGB).
Proof.
  intros Hff after.
  assert (Hem : emitted self after =
                write_events (pairs (if c =? OV7670_COLOR_RGB
                                     then _OV7670_rgb else _OV7670_yuv))).
  { subst after. rewrite colorspace_setter_run by exact Hff.
    unfold emitted. cbn [snd _i2c_device with_device].
    rewrite trace_dev_write_all. apply skipn_exact. }
  split; [rewrite colorspace_setter_run by exact Hff; reflexivity|].
  split; [subst after; rewrite colorspace_setter_run by exact Hff; reflexivity|].
  split; [exact Hem|].
  rewrite Hem, writes_of_write_events.
  destruct (Z.eqb_spec c OV7670_COLOR_RGB) as [Heq|Hne]; split; split;
    try discriminate; try tauto; intros; congruence.
Qed.

Lemma colorspace_setter_no_validation_witness :
  fault_free (_i2c_device (new_OV7670 dev0)) /\
  fst (colorspace_setter 7 (new_OV7670 dev0)) = Ok tt /\
  colorspace (snd (colorspace_setter 7 (new_OV7670 dev0))) = Some 7 /\
  emitted (new_OV7670 dev0) (snd (colorspace_setter 7 (new_OV7670 dev0)))
    = write_events (pairs _OV7670_yuv).
Proof.
  assert (Hff : fault_free (_i2c_device (new_OV7670 dev0))) by (intro n; reflexivity).
  split; [exact Hff|].
  destruct (colorspace_setter_no_validation (new_OV7670 dev0) 7 Hff)
    as (H1 & H2 & H3 & _).
  split; [exact H1|]. split; [exact H2|exact H3].
Defined.

(** ** Construction *)

Lemma In_skipn {A} (n : nat) (l : list A) (a : A) : In a (skipn n l) -> In a l.
Proof.
  revert l. induction n as [|n IH]; intros l H; [exact H|].
  destruct l as [|b l]; [exact H|]. right. apply IH. exact H.
Qed.

Lemma bind_ok {A B} (m : M A) (k : A -> M B) (self s' : OV7670) (a : A) :
  m self = (Ok a, s') -> bind m k self = k a s'.
Proof. intro H. unfold bind. rewrite H. reflexivity. Qed.

(** Neither register table touches the two scaling registers. *)
Lemma tables_spare_scaling (f : Z -> Z) (r : Z) :
  r = _OV7670_REG_SCALING_XSC \/ r = _OV7670_REG_SCALING_YSC ->
  replay (replay f (pairs _OV7670_rgb)) (pairs _OV7670_init) r = f r.
Proof. intros [-> | ->]; reflexivity. Qed.

(** The default size and the default test pattern, from a state [s3]. *)
Lemma init_defaults_run (s3 : OV7670) :
  fault_free (_i2c_device s3) ->
  0 <= reg_of s3 _OV7670_REG_SCALING_XSC < 256 ->
  0 <= reg_of s3 _OV7670_REG_SCALING_YSC < 256 ->
  let x := reg_of s3 _OV7670_REG_SCALING_XSC in
  let y := reg_of s3 _OV7670_REG_SCALING_YSC in
  exists d',
    (assign (fun self => with_size self None) ;;
     size_setter OV7670_SIZE_DIV8 ;;
     assign (fun self => with_test_pattern self None) ;;
     test_pattern_setter OV7670_TEST_PATTERN_NONE ;;
     assign (fun self => with_flip_x self false) ;;
     assign (fun self => with_flip_y self false) ;;
     assign (fun self => with_night self OV7670_NIGHT_MODE_OFF)) s3
    = (Ok tt,
       {| _i2c_device := d'; _colorspace := _colorspace s3;
          _size := Some OV7670_SIZE_DIV8; _test_pattern := None;
          _flip_x := false; _flip_y := false;
          _night := OV7670_NIGHT_MODE_OFF |}) /\
    trace d' =
      trace (_i2c_device s3)
      ++ frame_events OV7670_SIZE_DIV8 12 210 0 2 x y
      ++ [ EvRead _OV7670_REG_SCALING_XSC (Z.lor (Z.land x 0x80) 0x20);
           EvRead _OV7670_REG_SCALING_YSC (Z.lor (Z.land y 0x80) 0x20);
           EvWrite _OV7670_REG_SCALING_XSC 0x20;
           EvWrite _OV7670_REG_SCALING_YSC 0x20 ].
Proof.
  intros Hff Hx Hy x y.
  assert (Hrow : py_index _window OV7670_SIZE_DIV8 = Some (12, 210, 0, 2)) by reflexivity.
  destruct (size_setter_run (with_size s3 None) OV7670_SIZE_DIV8 12 210 0 2
              Hff Hx Hy ltac:(closed_byte) Hrow)
    as (d4 & Hrun4 & Htr4 & Hfl4 & Hregs4).
  change (reg_of (with_size s3 None) _OV7670_REG_SCALING_XSC) with x in Htr4, Hregs4.
  change (reg_of (with_size s3 None) _OV7670_REG_SCALING_YSC) with y in Htr4, Hregs4.
  change (_i2c_device (with_size s3 None)) with (_i2c_device s3) in Htr4, Hfl4, Hregs4.
  set (s4 := with_test_pattern
               (with_size (with_device (with_size s3 None) d4) (Some OV7670_SIZE_DIV8))
               None).
  assert (Hff4 : fault_free (_i2c_device s4)).
  { intro n. change (faults d4 n = false). rewrite Hfl4. apply Hff. }
  assert (Hx4 : reg_of s4 _OV7670_REG_SCALING_XSC = Z.lor (Z.land x 0x80) 0x20).
  { change (regs d4 _OV7670_REG_SCALING_XSC = Z.lor (Z.land x 0x80) 0x20).
    rewrite Hregs4. reflexivity. }
  assert (Hy4 : reg_of s4 _OV7670_REG_SCALING_YSC = Z.lor (Z.land y 0x80) 0x20).
  { change (regs d4 _OV7670_REG_SCALING_YSC = Z.lor (Z.land y 0x80) 0x20).
    rewrite Hregs4. reflexivity. }
  assert (Hbx : 0 <= reg_of s4 _OV7670_REG_SCALING_XSC < 256)
    by (rewrite Hx4; apply lor_byte; [apply land_byte; exact Hx | lia]).
  assert (Hby : 0 <= reg_of s4 _OV7670_REG_SCALING_YSC < 256)
    by (rewrite Hy4; apply lor_byte; [apply land_byte; exact Hy | lia]).
  pose proof (test_pattern_setter_run s4 OV7670_TEST_PATTERN_NONE Hff4 Hbx Hby) as Hrun5.
  cbv zeta in Hrun5. rewrite Hx4, Hy4 in Hrun5.
  change (Z.testbit OV7670_TEST_PATTERN_NONE 0) with false in Hrun5.
  change (Z.testbit OV7670_TEST_PATTERN_NONE 1) with false in Hrun5.
  assert (Hclear : forall v, Z.land (Z.lor (Z.land v 0x80) 0x20) (Z.lnot 0x80) = 0x20).
  { intro v. rewrite Z.land_lor_distr_l, <- Z.land_assoc.
    change (Z.land 128 (Z.lnot 128)) with 0. rewrite Z.land_0_r. reflexivity. }
  rewrite !Hclear in Hrun5.
  eexists. split.
  - erewrite bind_ok by reflexivity.
    erewrite bind_ok by exact Hrun4.
    erewrite bind_ok by reflexivity.
    erewrite bind_ok by exact Hrun5.
    reflexivity.
  - cbn [trace dev_write dev_read _i2c_device with_test_pattern with_size
         with_device with_flip_x with_flip_y with_night].
    change (regs (_i2c_device s4) _OV7670_REG_SCALING_XSC)
      with (reg_of s4 _OV7670_REG_SCALING_XSC).
    change (regs (dev_read (_i2c_device s4) _OV7670_REG_SCALING_XSC)
                 _OV7670_REG_SCALING_YSC)
      with (reg_of s4 _OV7670_REG_SCALING_YSC).
    change (trace (_i2c_device s4)) with (trace d4).
    rewrite Hx4, Hy4, Htr4, <- !app_assoc. cbn [app]. reflexivity.
Qed.


(** The device when the reset is over. *)
Lemma init_reset_run (d : I2CDevice) (reset : bool) :
  fault_free d ->
  let d1 := if reset then d else dev_write d _OV7670_REG_COM7 _OV7670_COM7_RESET in
  (if reset then ret tt else _write_register _OV7670_REG_COM7 _OV7670_COM7_RESET)
    (new_OV7670 d) = (Ok tt, new_OV7670 d1).
Proof.
  intros Hff d1. subst d1. destruct reset; [reflexivity|].
  rewrite write_register_ok by first [exact Hff | closed_byte]. reflexivity.
Qed.

(** From the reset to the end of the baseline table; [rest] is what
    [__init__] does next. *)
Lemma init_prefix_run (d : I2CDevice) (reset : bool) (rest : M unit) :
  fault_free d ->
  let d1 := if reset then d else dev_write d _OV7670_REG_COM7 _OV7670_COM7_RESET in
  ((if reset then ret tt else _write_register _OV7670_REG_COM7 _OV7670_COM7_RESET) ;;
   assign (fun self => with_colorspace self None) ;;
   colorspace_setter OV7670_COLOR_RGB ;;
   _write_list _OV7670_init ;;
   rest) (new_OV7670 d)
  = rest (with_colorspace
            (new_OV7670
               (dev_write_all (dev_write_all d1 (pairs _OV7670_rgb))
                              (pairs _OV7670_init)))
            (Some OV7670_COLOR_RGB)).
Proof.
  intros Hff d1.
  assert (Hff1 : fault_free d1) by (subst d1; destruct reset; exact Hff).
  erewrite bind_ok by (apply init_reset_run; exact Hff).
  fold d1.
  erewrite bind_ok by reflexivity.
  erewrite bind_ok by (apply colorspace_setter_run; exact Hff1).
  erewrite bind_ok.
  2:{ apply write_list_run; [|reflexivity|reflexivity].
      intro n. cbn [_i2c_device with_device]. rewrite faults_dev_write_all. apply Hff1. }
  reflexivity.
Qed.

Lemma init_run (d : I2CDevice) (reset : bool) :
  fault_free d ->
  0 <= regs d _OV7670_REG_SCALING_XSC < 256 ->
  0 <= regs d _OV7670_REG_SCALING_YSC < 256 ->
  let x := regs d _OV7670_REG_SCALING_XSC in
  let y := regs d _OV7670_REG_SCALING_YSC in
  exists d',
    __init__ reset (new_OV7670 d) =
    (Ok tt,
     {| _i2c_device := d'; _colorspace := Some OV7670_COLOR_RGB;
        _size := Some OV7670_SIZE_DIV8; _test_pattern := None;
        _flip_x := false; _flip_y := false; _night := OV7670_NIGHT_MODE_OFF |}) /\
    trace d' =
      trace d
      ++ (if reset then [] else [EvWrite _OV7670_REG_COM7 _OV7670_COM7_RESET])
      ++ write_events (pairs _OV7670_rgb)
      ++ write_events (pairs _OV7670_init)
      ++ frame_events OV7670_SIZE_DIV8 12 210 0 2 x y
      ++ [ EvRead _OV7670_REG_SCALING_XSC (Z.lor (Z.land x 0x80) 0x20);
           EvRead _OV7670_REG_SCALING_YSC (Z.lor (Z.land y 0x80) 0x20);
           EvWrite _OV7670_REG_SCALING_XSC 0x20;
           EvWrite _OV7670_REG_SCALING_YSC 0x20 ].
Proof.
  intros Hff Hx Hy x y.
  remember (if reset then d else dev_write d _OV7670_REG_COM7 _OV7670_COM7_RESET)
    as d1 eqn:Hd1.
  assert (Hff1 : fault_free d1) by (subst d1; destruct reset; exact Hff).
  assert (Htr1 : trace d1 = trace d ++
            (if reset then [] else [EvWrite _OV7670_REG_COM7 _OV7670_COM7_RESET])).
  { subst d1. destruct reset; [symmetry; apply app_nil_r | reflexivity]. }
  assert (Hx1 : regs d1 _OV7670_REG_SCALING_XSC = x) by (subst d1; destruct reset; reflexivity).
  assert (Hy1 : regs d1 _OV7670_REG_SCALING_YSC = y) by (subst d1; destruct reset; reflexivity).
  remember (with_colorspace
              (new_OV7670 (dev_write_all (dev_write_all d1 (pairs _OV7670_rgb))
                                         (pairs _OV7670_init)))
              (Some OV7670_COLOR_RGB)) as s3 eqn:Hs3.
  assert (Hprefix : forall rest : M unit,
            ((if reset then ret tt
              else _write_register _OV7670_REG_COM7 _OV7670_COM7_RESET) ;;
             assign (fun self => with_colorspace self None) ;;
             colorspace_setter OV7670_COLOR_RGB ;;
             _write_list _OV7670_init ;;
             rest) (new_OV7670 d) = rest s3).
  { intro rest. rewrite Hs3, Hd1. apply init_prefix_run. exact Hff. }
  clear Hd1.
  assert (Hdev3 : _i2c_device s3
                  = dev_write_all (dev_write_all d1 (pairs _OV7670_rgb))
                                  (pairs _OV7670_init))
    by (rewrite Hs3; reflexivity).
  assert (Hcs3 : _colorspace s3 = Some OV7670_COLOR_RGB) by (rewrite Hs3; reflexivity).
  clear Hs3.
  assert (Hff3 : fault_free (_i2c_device s3)).
  { intro n. rewrite Hdev3, !faults_dev_write_all. apply Hff1. }
  assert (Hx3 : reg_of s3 _OV7670_REG_SCALING_XSC = x).
  { unfold reg_of. rewrite Hdev3, !regs_dev_write_all, tables_spare_scaling by tauto.
    exact Hx1. }
  assert (Hy3 : reg_of s3 _OV7670_REG_SCALING_YSC = y).
  { unfold reg_of. rewrite Hdev3, !regs_dev_write_all, tables_spare_scaling by tauto.
    exact Hy1. }
  assert (Htr3 : trace (_i2c_device s3)
                 = trace d1 ++ write_events (pairs _OV7670_rgb)
                            ++ write_events (pairs _OV7670_init)).
  { rewrite Hdev3, !trace_dev_write_all, <- app_assoc. reflexivity. }
  destruct (init_defaults_run s3 Hff3) as (d' & Hrun & Htr);
    [rewrite Hx3; exact Hx | rewrite Hy3; exact Hy|].
  cbv zeta in Htr. rewrite Hx3, Hy3, Htr3, Htr1 in Htr. rewrite Hcs3 in Hrun.
  exists d'. split.
  - unfold __init__. rewrite Hprefix. exact Hrun.
  - rewrite Htr, <- !app_assoc. reflexivity.
Qed.

(** C3, as amended.  Construction on a healthy bus succeeds and writes, in
    this order: the soft reset through COM7 when no reset pin is given,
    the RGB colorspace patch, the whole baseline table, the registers of
    the default size (1:8), and the two scaling registers for the default
    test pattern.  The colorspace patch comes before the baseline table,
    size and test pattern after it. *)
Theorem construction_write_order (d : I2CDevice) (reset : bool) :
  fault_free d ->
  0 <= regs d _OV7670_REG_SCALING_XSC < 256 ->
  0 <= regs d _OV7670_REG_SCALING_YSC < 256 ->
  let cam := snd (__init__ reset (new_OV7670 d)) in
  fst (__init__ reset (new_OV7670 d)) = Ok tt /\
  colorspace cam = Some OV7670_COLOR_RGB /\
  size cam = Some OV7670_SIZE_DIV8 /\
  exists size_ws tp_ws,
    writes_of (emitted (new_OV7670 d) cam)
      = (if reset then [] else [(_OV7670_REG_COM7, _OV7670_COM7_RESET)])
        ++ pairs _OV7670_rgb ++ pairs _OV7670_init ++ size_ws ++ tp_ws /\
    map fst size_ws
      = [ _OV7670_REG_COM3; _OV7670_REG_COM14; _OV7670_REG_SCALING_DCWCTR;
          _OV7670_REG_SCALING_PCLK_DIV; _OV7670_REG_SCALING_XSC;
          _OV7670_REG_SCALING_YSC; _OV7670_REG_HSTART; _OV7670_REG_HSTOP;
          _OV7670_REG_HREF; _OV7670_REG_VSTART; _OV7670_REG_VSTOP;
          _OV7670_REG_VREF; _OV7670_REG_SCALING_PCLK_DELAY ] /\
    tp_ws = [ (_OV7670_REG_SCALING_XSC, 0x20); (_OV7670_REG_SCALING_YSC, 0x20) ].
Proof.
  intros Hff Hx Hy cam.
  destruct (init_run d reset Hff Hx Hy) as (d' & Hrun & Htr).
  cbv zeta in Htr. subst cam. rewrite Hrun. cbn [fst snd].
  split; [reflexivity|]. split; [reflexivity|]. split; [reflexivity|].
  exists (writes_of (frame_events OV7670_SIZE_DIV8 12 210 0 2
                       (regs d _OV7670_REG_SCALING_XSC)
                       (regs d _OV7670_REG_SCALING_YSC))).
  exists [ (_OV7670_REG_SCALING_XSC, 0x20); (_OV7670_REG_SCALING_YSC, 0x20) ].
  split; [|split; reflexivity].
  unfold emitted. cbn [_i2c_device new_OV7670]. rewrite Htr, skipn_exact.
  rewrite !writes_of_app, !writes_of_write_events.
  replace (writes_of (if reset then []
                      else [EvWrite _OV7670_REG_COM7 _OV7670_COM7_RESET]))
    with (if reset then [] else [(_OV7670_REG_COM7, _OV7670_COM7_RESET)])
    by (destruct reset; reflexivity).
  reflexivity.
Qed.

Lemma construction_write_order_witness :
  fault_free dev0 /\
  fst (__init__ false (new_OV7670 dev0)) = Ok tt /\
  size (snd (__init__ false (new_OV7670 dev0))) = Some OV7670_SIZE_DIV8.
Proof.
  assert (Hff : fault_free dev0) by (intro n; reflexivity).
  assert (Hx : 0 <= regs dev0 _OV7670_REG_SCALING_XSC < 256)
    by (vm_compute; split; [discriminate | reflexivity]).
  assert (Hy : 0 <= regs dev0 _OV7670_REG_SCALING_YSC < 256)
    by (vm_compute; split; [discriminate | reflexivity]).
  split; [exact Hff|].
  destruct (construction_write_order dev0 false Hff Hx Hy) as (H1 & _ & H3 & _).
  split; [exact H1 | exact H3].
Defined.

(** C3 as stated fails: in the writes of construction the colorspace patch
    does not come after the baseline table.  Wherever the table is found
    as a block, the write of COM7 that selects RGB is not behind it. *)
Lemma colorspace_patch_precedes_baseline :
  ~ baseline_before_defaults (writes_of (trace (_i2c_device fresh_camera))).
Proof.
  intros (pre & post & Heq & Hincl).
  assert (Hin : In (_OV7670_REG_COM7, _OV7670_COM7_RGB) post)
    by (apply Hincl; left; reflexivity).
  assert (Hpost : post = skipn (length pre)
                    (skipn 97 (writes_of (trace (_i2c_device fresh_camera))))).
  { rewrite skipn_skipn, Heq, app_assoc.
    replace (length pre + 97)%nat with (length (pre ++ pairs _OV7670_init))
      by (rewrite length_app; reflexivity).
    symmetry. apply skipn_exact. }
  rewrite Hpost in Hin. apply In_skipn in Hin.
  vm_compute in Hin.
  repeat (destruct Hin as [Hin|Hin]; [discriminate Hin|]). exact Hin.
Qed.

(** ** Concrete runs of the theorems *)

Lemma size_and_test_pattern_share_scaling_registers_witness :
  fault_free (_i2c_device patterned_camera) /\
  reg_of (snd (size_setter OV7670_SIZE_DIV16 patterned_camera))
         _OV7670_REG_SCALING_XSC = 0xC0 /\
  Z.land (reg_of (snd (test_pattern_setter OV7670_TEST_PATTERN_COLOR_BAR
                         (snd (size_setter OV7670_SIZE_DIV16 patterned_camera))))
                 _OV7670_REG_SCALING_XSC) 0x7F = 0x40 /\
  Z.testbit (reg_of (snd (test_pattern_setter OV7670_TEST_PATTERN_COLOR_BAR
                            (snd (size_setter OV7670_SIZE_DIV16 patterned_camera))))
                    _OV7670_REG_SCALING_YSC) 7 = true.
Proof.
  assert (Hff : fault_free (_i2c_device patterned_camera)) by (intro n; reflexivity).
  assert (Hx : 0 <= reg_of patterned_camera _OV7670_REG_SCALING_XSC < 256)
    by (vm_compute; split; [discriminate | reflexivity]).
  assert (Hy : 0 <= reg_of patterned_camera _OV7670_REG_SCALING_YSC < 256)
    by (vm_compute; split; [discriminate | reflexivity]).
  assert (HX : 0 <= OV7670_SIZE_DIV16 <= 4)
    by (vm_compute; split; discriminate).
  split; [exact Hff|].
  destruct (size_and_test_pattern_share_scaling_registers
              patterned_camera OV7670_SIZE_DIV16 OV7670_TEST_PATTERN_COLOR_BAR
              Hff Hx Hy HX)
    as (_ & _ & (_ & H1 & _ & _ & H2)).
  split; [reflexivity|]. split; [exact H1 | exact H2].
Defined.

Lemma night_setter_masks_top_bits_witness :
  fault_free (_i2c_device baseline_camera) /\
  fst (night_setter OV7670_NIGHT_MODE_4 baseline_camera) = Ok tt /\
  reg_of (snd (night_setter OV7670_NIGHT_MODE_4 baseline_camera))
         _OV7670_REG_COM11 = 0xDA /\
  night (snd (night_setter OV7670_NIGHT_MODE_4 baseline_camera)) = 0xC0.
Proof.
  assert (Hff : fault_free (_i2c_device baseline_camera)) by (intro n; reflexivity).
  assert (Hb : 0 <= reg_of baseline_camera _OV7670_REG_COM11 < 256)
    by (vm_compute; split; [discriminate | reflexivity]).
  assert (Hm : In OV7670_NIGHT_MODE_4
                 [OV7670_NIGHT_MODE_OFF; OV7670_NIGHT_MODE_2;
                  OV7670_NIGHT_MODE_4; OV7670_NIGHT_MODE_8])
    by (simpl; tauto).
  split; [exact Hff|].
  destruct (night_setter_masks_top_bits baseline_camera OV7670_NIGHT_MODE_4 Hff Hb Hm)
    as (H1 & _ & H3 & _ & _ & H6).
  split; [exact H1 | split; [exact H3 | exact H6]].
Defined.

Lemma frame_control_window_registers_witness :
  fault_free (_i2c_device patterned_camera) /\
  py_index _window OV7670_SIZE_DIV4 = Some (11, 186, 2, 2) /\
  written _OV7670_REG_HSTOP
    (emitted patterned_camera (snd (size_setter OV7670_SIZE_DIV4 patterned_camera)))
    = [5] /\
  reg_of (snd (size_setter OV7670_SIZE_DIV4 patterned_camera)) _OV7670_REG_HREF
    = 0x92.
Proof.
  assert (Hff : fault_free (_i2c_device patterned_camera)) by (intro n; reflexivity).
  assert (Hx : 0 <= reg_of patterned_camera _OV7670_REG_SCALING_XSC < 256)
    by (vm_compute; split; [discriminate | reflexivity]).
  assert (Hy : 0 <= reg_of patterned_camera _OV7670_REG_SCALING_YSC < 256)
    by (vm_compute; split; [discriminate | reflexivity]).
  assert (Hc : 0 <= OV7670_SIZE_DIV4 <= 4) by (vm_compute; split; discriminate).
  assert (Hrow : py_index _window OV7670_SIZE_DIV4 = Some (11, 186, 2, 2))
    by reflexivity.
  split; [exact Hff|]. split; [exact Hrow|].
  destruct (frame_control_window_registers
              patterned_camera OV7670_SIZE_DIV4 11 186 2 2 Hff Hx Hy Hc Hrow)
    as (_ & _ & (_ & H1 & _) & (_ & _ & H2 & _) & _).
  split; [exact H1 | exact H2].
Defined.

Lemma frame_control_clock_and_downsample_witness :
  fault_free (_i2c_device patterned_camera) /\
  written _OV7670_REG_COM14
    (emitted patterned_camera (snd (size_setter OV7670_SIZE_DIV16 patterned_camera)))
    = [0x1C] /\
  reg_of (snd (size_setter OV7670_SIZE_DIV16 patterned_camera))
         _OV7670_REG_SCALING_DCWCTR = 0x33.
Proof.
  assert (Hff : fault_free (_i2c_device patterned_camera)) by (intro n; reflexivity).
  assert (Hx : 0 <= reg_of patterned_camera _OV7670_REG_SCALING_XSC < 256)
    by (vm_compute; split; [discriminate | reflexivity]).
  assert (Hy : 0 <= reg_of patterned_camera _OV7670_REG_SCALING_YSC < 256)
    by (vm_compute; split; [discriminate | reflexivity]).
  assert (Hc : 0 <= OV7670_SIZE_DIV16 <= 4) by (vm_compute; split; discriminate).
  split; [exact Hff|].
  destruct (frame_control_clock_and_downsample
              patterned_camera OV7670_SIZE_DIV16 Hff Hx Hy Hc)
    as (_ & H1 & _ & _ & _ & H2 & _).
  split; [exact H1 | exact H2].
Defined.

Lemma width_height_after_size_setter_witness :
  fault_free (_i2c_device patterned_camera) /\
  width (snd (size_setter OV7670_SIZE_DIV4 patterned_camera)) = Ok 160 /\
  height (snd (size_setter OV7670_SIZE_DIV4 patterned_camera)) = Ok 120.
Proof.
  assert (Hff : fault_free (_i2c_device patterned_camera)) by (intro n; reflexivity).
  assert (Hx : 0 <= reg_of patterned_camera _OV7670_REG_SCALING_XSC < 256)
    by (vm_compute; split; [discriminate | reflexivity]).
  assert (Hy : 0 <= reg_of patterned_camera _OV7670_REG_SCALING_YSC < 256)
    by (vm_compute; split; [discriminate | reflexivity]).
  assert (Hc : 0 <= OV7670_SIZE_DIV4 <= 4) by (vm_compute; split; discriminate).
  split; [exact Hff|].
  destruct (width_height_after_size_setter
              patterned_camera OV7670_SIZE_DIV4 Hff Hx Hy Hc)
    as (_ & _ & H1 & H2 & _).
  split; [exact H1 | exact H2].
Defined.

Lemma set_flip_touches_only_flip_bits_witness :
  fault_free (_i2c_device baseline_camera) /\
  fst (_set_flip (with_flip_y (with_flip_x baseline_camera true) false)) = Ok tt /\
  emitted baseline_camera
    (snd (_set_flip (with_flip_y (with_flip_x baseline_camera true) false)))
    = [EvRead _OV7670_REG_MVFP 0x07; EvWrite _OV7670_REG_MVFP 0x27].
Proof.
  assert (Hff : fault_free (_i2c_device baseline_camera)) by (intro n; reflexivity).
  assert (Hb : 0 <= reg_of baseline_camera _OV7670_REG_MVFP < 256)
    by (vm_compute; split; [discriminate | reflexivity]).
  split; [exact Hff|].
  destruct (set_flip_touches_only_flip_bits baseline_camera true false Hff Hb)
    as (H1 & H2 & _).
  split; [exact H1 | exact H2].
Defined.

(** * Beyond the claims *)

(** ** The register file as a replay of the log *)

Lemma replay_app (f : Z -> Z) (ws ws' : list (Z * Z)) :
  replay f (ws ++ ws') = replay (replay f ws) ws'.
Proof. unfold replay. apply fold_left_app. Qed.

Lemma replay_ext (ws : list (Z * Z)) :
  forall f g, (forall r, f r = g r) -> forall r, replay f ws r = replay g ws r.
Proof.
  induction ws as [|[a v] ws IH]; intros f g H r; [apply H|].
  apply (IH (upd f a v) (upd g a v)). intro r'. unfold upd.
  destruct (r' =? a); [reflexivity | apply H].
Qed.

Lemma replay_outside (ws : list (Z * Z)) :
  forall f r, ~ In r (map fst ws) -> replay f ws r = f r.
Proof.
  induction ws as [|[a v] ws IH]; intros f r H; [reflexivity|].
  change (replay (upd f a v) ws r = f r). rewrite IH.
  - unfold upd. destruct (Z.eqb_spec r a) as [->|]; [|reflexivity].
    exfalso. apply H. left. reflexivity.
  - intro Hin. apply H. right. exact Hin.
Qed.

Lemma replay_inside (ws : list (Z * Z)) :
  forall f g r, In r (map fst ws) -> replay f ws r = replay g ws r.
Proof.
  induction ws as [|[a v] ws IH]; intros f g r H; [destruct H|].
  change (replay (upd f a v) ws r = replay (upd g a v) ws r).
  destruct (in_dec Z.eq_dec r (map fst ws)) as [Hin|Hout].
  - apply IH. exact Hin.
  - rewrite !replay_outside by exact Hout.
    destruct H as [H|H]; [|contradiction]. simpl in H. subst a.
    unfold upd. rewrite Z.eqb_refl. reflexivity.
Qed.

Lemma emitted_app (s s' : OV7670) (evs : list event) :
  trace (_i2c_device s') = trace (_i2c_device s) ++ evs -> emitted s s' = evs.
Proof. intro H. unfold emitted. rewrite H. apply skipn_exact. Qed.

Lemma confined_ret (S : list Z) {A} (a : A) : confined S (ret a).
Proof.
  intro self. exists []. simpl. rewrite app_nil_r.
  repeat split. intros r H. destruct H.
Qed.

Lemma confined_raise (S : list Z) {A} (e : exn) : confined S (@raise A e).
Proof.
  intro self. exists []. simpl. rewrite app_nil_r.
  repeat split. intros r H. destruct H.
Qed.

Lemma confined_assign (S : list Z) (f : OV7670 -> OV7670) :
  (forall s, _i2c_device (f s) = _i2c_device s) -> confined S (assign f).
Proof.
  intros Hf self. exists []. unfold reg_of. simpl. rewrite Hf, app_nil_r.
  repeat split. intros r H. destruct H.
Qed.

Lemma confined_write (S : list Z) (reg value : Z) :
  In reg S -> confined S (_write_register reg value).
Proof.
  intros Hin self. unfold _write_register, reg_of.
  destruct (negb (is_byte reg));
    [exists []; simpl; rewrite app_nil_r; repeat split; intros r H; destruct H|].
  destruct (negb (is_byte value));
    [exists []; simpl; rewrite app_nil_r; repeat split; intros r H; destruct H|].
  destruct (faults _ _).
  - exists []. simpl. rewrite app_nil_r. repeat split. intros r H. destruct H.
  - exists [EvWrite reg value]. simpl. repeat split.
    intros r [<-|[]]. exact Hin.
Qed.

Lemma confined_read (S : list Z) (reg : Z) : confined S (_read_register reg).
Proof.
  intro self. unfold _read_register, reg_of.
  destruct (negb (is_byte reg));
    [exists []; simpl; rewrite app_nil_r; repeat split; intros r H; destruct H|].
  destruct (faults _ _).
  - exists []. simpl. rewrite app_nil_r. repeat split. intros r H. destruct H.
  - exists [EvRead reg (regs (_i2c_device self) reg)]. simpl. repeat split.
    intros r [].
Qed.

Lemma confined_bind (S : list Z) {A B} (m : M A) (k : A -> M B) :
  confined S m -> (forall a, confined S (k a)) -> confined S (bind m k).
Proof.
  intros Hm Hk self. unfold bind.
  destruct (Hm self) as (evs1 & Ht1 & Hr1 & Hi1).
  destruct (m self) as [[a|e] s1]; simpl in *.
  - destruct (Hk a s1) as (evs2 & Ht2 & Hr2 & Hi2).
    exists (evs1 ++ evs2). split; [|split].
    + rewrite Ht2, Ht1. symmetry. apply app_assoc.
    + intro r. rewrite Hr2, writes_of_app, replay_app.
      apply replay_ext. exact Hr1.
    + rewrite writes_of_app, map_app. apply incl_app; assumption.
  - exists evs1. repeat split; assumption.
Qed.


Lemma confined_touches_only (S : list Z) {A} (m : M A) :
  confined S m -> touches_only S m.
Proof.
  intros Hm self r Hr. destruct (Hm self) as (evs & _ & Hregs & Hi).
  rewrite Hregs. apply replay_outside. intro H. apply Hr, Hi, H.
Qed.

Lemma confined_write_list (S : list Z) (reg_list : list Z) :
  incl (map fst (pairs reg_list)) S -> confined S (_write_list reg_list).
Proof.
  induction reg_list as [|x|x y l IH] using pair_induction; intro Hincl.
  - apply confined_ret.
  - apply confined_raise.
  - cbn [_write_list]. apply confined_bind.
    + apply confined_write. apply Hincl. left. reflexivity.
    + intros _. apply IH. intros r H. apply Hincl. right. exact H.
Qed.

(** ** The registers a method can write *)

Ltac in_list := repeat first [left; reflexivity | right].

Ltac confined_tac :=
  cbv zeta;
  repeat first
    [ apply confined_write; in_list | apply confined_read | apply confined_ret
    | apply confined_raise
    | apply confined_assign; intro; reflexivity
    | apply confined_bind; [|intro] ].

Lemma confined_frame_control (c vstart hstart edge_offset pclk_delay : Z) :
  confined frame_registers (_frame_control c vstart hstart edge_offset pclk_delay).
Proof. unfold _frame_control. confined_tac. Qed.

Lemma confined_size_setter (value : Z) : confined frame_registers (size_setter value).
Proof.
  unfold size_setter.
  destruct (py_index _window value) as [[[[vstart hstart] edge_offset] pclk_delay]|].
  - apply confined_bind; [apply confined_frame_control|intro]. confined_tac.
  - apply confined_raise.
Qed.

Lemma confined_test_pattern_setter (pattern : Z) :
  confined [_OV7670_REG_SCALING_XSC; _OV7670_REG_SCALING_YSC]
           (test_pattern_setter pattern).
Proof. unfold test_pattern_setter. confined_tac. Qed.

Lemma confined_set_flip : confined [_OV7670_REG_MVFP] _set_flip.
Proof.
  unfold _set_flip. apply confined_bind; [apply confined_read|].
  intros mvfp self. cbv beta zeta. apply confined_write. in_list.
Qed.

Lemma confined_flip_x_setter (value : Z) :
  confined [_OV7670_REG_MVFP] (flip_x_setter value).
Proof.
  unfold flip_x_setter. apply confined_bind; [|intro; apply confined_set_flip].
  confined_tac.
Qed.

Lemma confined_flip_y_setter (value : Z) :
  confined [_OV7670_REG_MVFP] (flip_y_setter value).
Proof.
  unfold flip_y_setter. apply confined_bind; [|intro; apply confined_set_flip].
  confined_tac.
Qed.

Lemma confined_night_setter (value : Z) :
  confined [_OV7670_REG_COM11] (night_setter value).
Proof. unfold night_setter. confined_tac. Qed.

Lemma confined_colorspace_setter (c : Z) :
  confined colorspace_registers (colorspace_setter c).
Proof.
  unfold colorspace_setter. apply confined_bind; [confined_tac|intro].
  apply confined_write_list.
  destruct (c =? OV7670_COLOR_RGB); intros r H; simpl in H;
    unfold colorspace_registers; simpl; tauto.
Qed.

(** X1. Whatever the bus does and whatever the argument is, a setter
    changes only its own registers: COM7, RGB444 and COM15 for the
    colorspace, the thirteen frame registers for the size, SCALING_XSC
    and SCALING_YSC for the test pattern, MVFP for the flips, COM11 for
    the night mode; the product getters change none. *)
Theorem setters_write_only_their_registers :
  (forall c, touches_only colorspace_registers (colorspace_setter c)) /\
  (forall c, touches_only frame_registers (size_setter c)) /\
  (forall p, touches_only [_OV7670_REG_SCALING_XSC; _OV7670_REG_SCALING_YSC]
                          (test_pattern_setter p)) /\
  (forall v, touches_only [_OV7670_REG_MVFP] (flip_x_setter v)) /\
  (forall v, touches_only [_OV7670_REG_MVFP] (flip_y_setter v)) /\
  (forall v, touches_only [_OV7670_REG_COM11] (night_setter v)) /\
  touches_only [] product_id /\
  touches_only [] product_version.
Proof.
  repeat split; intros; apply confined_touches_only;
    first [ apply confined_colorspace_setter | apply confined_size_setter
          | apply confined_test_pattern_setter | apply confined_flip_x_setter
          | apply confined_flip_y_setter | apply confined_night_setter
          | apply confined_read ].
Qed.

(** ** The attributes a setter can change *)

Lemma bus_only_write_list (reg_list : list Z) : bus_only (_write_list reg_list).
Proof.
  induction reg_list as [|x|x y l IH] using pair_induction.
  - apply bus_only_ret.
  - apply bus_only_raise.
  - cbn [_write_list]. apply bus_only_bind; [apply bus_only_write | intro; exact IH].
Qed.

Lemma bus_only_set_flip : bus_only _set_flip.
Proof.
  unfold _set_flip. apply bus_only_bind; [apply bus_only_read|].
  intros mvfp self. cbv beta zeta. apply bus_only_write.
Qed.

Ltac attrs_tac := unfold same_attrs, raise, ret in *; simpl in *; intuition congruence.

(** X2. Whatever the bus does and whatever the argument is, a setter
    changes no attribute but its own: the object after the call has the
    attributes of the object before, with the setter's own attribute
    replaced by what its getter now returns.  The test-pattern setter
    and the two product getters change no attribute at all. *)
Theorem setters_change_only_their_attribute (self : OV7670) (v : Z) :
  let c := snd (colorspace_setter v self) in
  let s := snd (size_setter v self) in
  let p := snd (test_pattern_setter v self) in
  let x := snd (flip_x_setter v self) in
  let y := snd (flip_y_setter v self) in
  let n := snd (night_setter v self) in
  same_attrs (with_colorspace self (colorspace c)) c /\
  same_attrs (with_size self (size s)) s /\
  same_attrs self p /\
  same_attrs (with_flip_x self (flip_x x)) x /\
  same_attrs (with_flip_y self (flip_y y)) y /\
  same_attrs (with_night self (night n)) n /\
  same_attrs self (snd (product_id self)) /\
  same_attrs self (snd (product_version self)).
Proof.
  cbv zeta.
  split; [|split; [|split; [|split; [|split; [|split; [|split]]]]]].
  all: try (apply bus_only_read).
  all: try (apply bus_only_test_pattern_setter).
  - pose proof (bus_only_write_list
      (if v =? OV7670_COLOR_RGB then _OV7670_rgb else _OV7670_yuv)
      (with_colorspace self (Some v))) as H.
    unfold colorspace. unfold colorspace_setter, bind, assign.
    revert H. generalize (_write_list
      (if v =? OV7670_COLOR_RGB then _OV7670_rgb else _OV7670_yuv)
      (with_colorspace self (Some v))).
    intros [r s1] H. attrs_tac.
  - unfold size, size_setter.
    destruct (py_index _window v) as [[[[vstart hstart] edge_offset] pclk_delay]|];
      [|attrs_tac].
    pose proof (bus_only_frame_control v vstart hstart edge_offset pclk_delay self) as H.
    unfold bind, assign.
    destruct (_frame_control v vstart hstart edge_offset pclk_delay self) as [[a|e] s1];
      attrs_tac.
  - pose proof (bus_only_set_flip (with_flip_x self (negb (v =? 0)))) as H.
    unfold flip_x, flip_x_setter, bind, assign.
    destruct (_set_flip (with_flip_x self (negb (v =? 0)))) as [r s1]. attrs_tac.
  - pose proof (bus_only_set_flip (with_flip_y self (negb (v =? 0)))) as H.
    unfold flip_y, flip_y_setter, bind, assign.
    destruct (_set_flip (with_flip_y self (negb (v =? 0)))) as [r s1]. attrs_tac.
  - assert (Hm : bus_only (com11 <- _read_register _OV7670_REG_COM11 ;;
                   _write_register _OV7670_REG_COM11 (Z.lor (Z.land com11 0x1F) v)))
      by bus_only_tac.
    specialize (Hm self). unfold night, night_setter. revert Hm. unfold bind, assign.
    destruct (_read_register _OV7670_REG_COM11 self) as [[b|e] s1]; [|attrs_tac].
    cbv zeta.
    destruct (_write_register _OV7670_REG_COM11 (Z.lor (Z.land b 31) v) s1) as [[a|e] s2];
      attrs_tac.
Qed.

(** X3. The colorspace and flip setters store the attribute before they
    talk to the bus.  When the next transaction of the bus fails, each of
    them raises [OSError] and no register has changed, yet the getter
    already returns the new value. *)
Theorem colorspace_and_flip_setters_store_first (self : OV7670) (v : Z) :
  faults (_i2c_device self) (ticks (_i2c_device self)) = true ->
  let c := colorspace_setter v self in
  let x := flip_x_setter v self in
  let y := flip_y_setter v self in
  (fst c = Raise OSError /\ colorspace (snd c) = Some v /\
   forall r, reg_of (snd c) r = reg_of self r) /\
  (fst x = Raise OSError /\ flip_x (snd x) = negb (v =? 0) /\
   forall r, reg_of (snd x) r = reg_of self r) /\
  (fst y = Raise OSError /\ flip_y (snd y) = negb (v =? 0) /\
   forall r, reg_of (snd y) r = reg_of self r).
Proof.
  intros Hfault. cbv zeta. split; [|split].
  - unfold colorspace_setter, colorspace, reg_of, bind, assign.
    destruct (v =? OV7670_COLOR_RGB); cbn [_write_list _OV7670_rgb _OV7670_yuv];
      unfold bind, _write_register; simpl; rewrite Hfault; simpl; repeat split.
  - unfold flip_x_setter, flip_x, reg_of, bind, assign, _set_flip, bind, _read_register.
    simpl. rewrite Hfault. simpl. repeat split.
  - unfold flip_y_setter, flip_y, reg_of, bind, assign, _set_flip, bind, _read_register.
    simpl. rewrite Hfault. simpl. repeat split.
Qed.

Lemma colorspace_and_flip_setters_store_first_witness :
  fst (colorspace_setter OV7670_COLOR_YUV dead_bus_camera) = Raise OSError /\
  colorspace (snd (colorspace_setter OV7670_COLOR_YUV dead_bus_camera))
    = Some OV7670_COLOR_YUV /\
  flip_x (snd (flip_x_setter 1 dead_bus_camera)) = true.
Proof.
  pose proof (colorspace_and_flip_setters_store_first dead_bus_camera 1 eq_refl) as H.
  cbv zeta in H. destruct H as ((H1 & H2 & _) & (_ & H3 & _) & _).
  split; [exact H1 | split; [exact H2 | exact H3]].
Defined.

(** ** Register lists of any length, on any bus *)

Lemma write_list_any_length (reg_list : list Z) :
  forall self,
    fault_free (_i2c_device self) ->
    forallb is_byte reg_list = true ->
    _write_list reg_list self =
    (if Nat.even (length reg_list) then Ok tt else Raise IndexError,
     with_device self (dev_write_all (_i2c_device self) (pairs reg_list))).
Proof.
  induction reg_list as [|x|x y l IH] using pair_induction; intros self Hff Hbytes.
  - destruct self; reflexivity.
  - destruct self; reflexivity.
  - simpl in Hbytes. apply andb_true_iff in Hbytes as [Hx Hbytes].
    apply andb_true_iff in Hbytes as [Hy Hbytes].
    apply is_byte_true in Hx, Hy.
    cbn [_write_list]. unfold bind.
    rewrite write_register_ok by assumption.
    rewrite IH by assumption. reflexivity.
Qed.

(** X4. On a healthy bus [_write_list] applied to a list of bytes writes
    every complete (register, value) pair of the list, in the order of
    the list, and nothing else; it returns normally when the length is
    even and raises [IndexError] on the unpaired last cell when it is
    odd, after all complete pairs were written.  No attribute changes. *)
Theorem write_list_writes_every_complete_pair (reg_list : list Z) (self : OV7670) :
  fault_free (_i2c_device self) ->
  forallb is_byte reg_list = true ->
  let out := _write_list reg_list self in
  fst out = (if Nat.even (length reg_list) then Ok tt else Raise IndexError) /\
  emitted self (snd out) = write_events (pairs reg_list) /\
  (forall r, reg_of (snd out) r = replay (regs (_i2c_device self)) (pairs reg_list) r) /\
  same_attrs self (snd out).
Proof.
  intros Hff Hbytes out. subst out.
  rewrite (write_list_any_length reg_list self Hff Hbytes).
  cbn [fst snd]. split; [reflexivity|]. split; [|split].
  - apply emitted_app. cbn [_i2c_device with_device]. apply trace_dev_write_all.
  - intro r. unfold reg_of. cbn [_i2c_device with_device].
    rewrite regs_dev_write_all. reflexivity.
  - destruct self; repeat split.
Qed.

Lemma write_list_writes_every_complete_pair_witness :
  fst (_write_list [0x12; 0x04; 0x8C] (new_OV7670 dev0)) = Raise IndexError /\
  emitted (new_OV7670 dev0) (snd (_write_list [0x12; 0x04; 0x8C] (new_OV7670 dev0)))
    = [EvWrite 0x12 0x04].
Proof.
  pose proof (write_list_writes_every_complete_pair [0x12; 0x04; 0x8C]
                (new_OV7670 dev0) (fun n => eq_refl) eq_refl) as H.
  cbv zeta in H. destruct H as (H1 & H2 & _).
  split; [exact H1 | exact H2].
Defined.

Lemma write_register_cases (reg value : Z) (self : OV7670) :
  _write_register reg value self
    = (Ok tt, with_device self (dev_write (_i2c_device self) reg value)) \/
  exists e s1,
    _write_register reg value self = (Raise e, s1) /\
    trace (_i2c_device s1) = trace (_i2c_device self) /\
    regs (_i2c_device s1) = regs (_i2c_device self).
Proof.
  unfold _write_register.
  destruct (negb (is_byte reg)); [right; eexists; eexists; repeat split|].
  destruct (negb (is_byte value)); [right; eexists; eexists; repeat split|].
  destruct (faults _ _); [right; eexists; eexists; repeat split | left; reflexivity].
Qed.

Lemma write_list_prefix (reg_list : list Z) :
  forall self,
    exists done rest,
      pairs reg_list = done ++ rest /\
      trace (_i2c_device (snd (_write_list reg_list self)))
        = trace (_i2c_device self) ++ write_events done /\
      regs (_i2c_device (snd (_write_list reg_list self)))
        = replay (regs (_i2c_device self)) done /\
      (fst (_write_list reg_list self) = Ok tt ->
       rest = [] /\ Nat.even (length reg_list) = true).
Proof.
  induction reg_list as [|x|x y l IH] using pair_induction; intro self.
  - exists [], []. simpl. rewrite app_nil_r. repeat split.
  - exists [], []. simpl. rewrite app_nil_r. repeat split; discriminate.
  - cbn [_write_list]. unfold bind.
    destruct (write_register_cases x y self) as [Hok | (e & s1 & Hraise & Htr & Hregs)].
    + rewrite Hok.
      destruct (IH (with_device self (dev_write (_i2c_device self) x y)))
        as (done & rest & Hsplit & Htr & Hregs & Hall).
      exists ((x, y) :: done), rest. split; [|split; [|split]].
      * cbn [pairs]. rewrite Hsplit. reflexivity.
      * rewrite Htr. cbn [_i2c_device with_device dev_write trace write_events map fst snd].
        rewrite <- app_assoc. reflexivity.
      * rewrite Hregs. reflexivity.
      * exact Hall.
    + rewrite Hraise. exists [], (pairs (x :: y :: l)). cbn [fst snd].
      split; [reflexivity|]. split; [rewrite Htr; simpl; symmetry; apply app_nil_r|].
      split; [rewrite Hregs; reflexivity | discriminate].
Qed.

(** X5. Whatever the bus does and whatever the list holds, the writes
    [_write_list] got through are a prefix of the pairs of the list, in
    order and without gaps; the register file is the old one with that
    prefix applied; and the call returns normally only when every pair
    was written and the length is even. *)
Theorem write_list_stops_at_first_failure (reg_list : list Z) (self : OV7670) :
  let out := _write_list reg_list self in
  exists done rest,
    pairs reg_list = done ++ rest /\
    emitted self (snd out) = write_events done /\
    (forall r, reg_of (snd out) r = replay (regs (_i2c_device self)) done r) /\
    (fst out = Ok tt -> rest = [] /\ Nat.even (length reg_list) = true).
Proof.
  cbv zeta.
  destruct (write_list_prefix reg_list self) as (done & rest & H1 & H2 & H3 & H4).
  exists done, rest. split; [exact H1|]. split; [apply emitted_app; exact H2|].
  split; [intro r; unfold reg_of; rewrite H3; reflexivity | exact H4].
Qed.

(** ** Sizes outside the table *)

Lemma replay_shadow (f : Z -> Z) (ws ws' : list (Z * Z)) (r : Z) :
  incl (map fst ws) (map fst ws') ->
  replay (replay f ws) ws' r = replay f ws' r.
Proof.
  intro Hincl. destruct (in_dec Z.eq_dec r (map fst ws')) as [Hin|Hout].
  - apply replay_inside. exact Hin.
  - rewrite (replay_outside ws' (replay f ws) r Hout).
    rewrite (replay_outside ws' f r Hout).
    apply replay_outside. intro H. apply Hout, Hincl, H.
Qed.

Lemma write_register_bad_value (self : OV7670) (reg value : Z) :
  is_byte value = false -> _write_register reg value self = (Raise ValueError, self).
Proof.
  intro H. unfold _write_register. rewrite H.
  destruct (negb (is_byte reg)); reflexivity.
Qed.

Lemma frame_events_registers (c vstart hstart edge_offset pclk_delay x y : Z) :
  map fst (writes_of (frame_events c vstart hstart edge_offset pclk_delay x y))
  = frame_registers.
Proof. reflexivity. Qed.

(** X6. A size below -5 or above 4 has no row in [_window]: the size
    setter raises [IndexError] before any bus transaction and leaves the
    object, [_size] included, exactly as it was. *)
Theorem size_setter_rejects_unknown_size (self : OV7670) (value : Z) :
  value < -5 \/ 5 <= value ->
  size_setter value self = (Raise IndexError, self).
Proof.
  intro H. unfold size_setter, py_index.
  change (Z.of_nat (length _window)) with 5.
  destruct (Z.leb_spec 0 value), (Z.ltb_spec value 5), (Z.leb_spec (- (5)) value),
    (Z.ltb_spec value 0); simpl; try reflexivity; lia.
Qed.

Lemma size_setter_rejects_unknown_size_witness :
  size_setter 5 fresh_camera = (Raise IndexError, fresh_camera) /\
  size (snd (size_setter 5 fresh_camera)) = Some OV7670_SIZE_DIV8.
Proof.
  assert (H : size_setter 5 fresh_camera = (Raise IndexError, fresh_camera)).
  { apply size_setter_rejects_unknown_size. right. lia. }
  split; [exact H | rewrite H; reflexivity].
Defined.

Lemma frame_control_negative (self : OV7670) (c vstart hstart edge_offset pclk_delay : Z) :
  fault_free (_i2c_device self) -> c < 0 ->
  _frame_control c vstart hstart edge_offset pclk_delay self =
  (Raise ValueError,
   with_device self
     (dev_write (dev_write (_i2c_device self) _OV7670_REG_COM3 0)
                _OV7670_REG_COM14 0)).
Proof.
  intros Hff Hc. unfold _frame_control. cbv zeta.
  assert (H1 : (OV7670_SIZE_DIV1 <? c) = false) by (apply Z.ltb_ge; unfold OV7670_SIZE_DIV1; lia).
  assert (H2 : (c =? OV7670_SIZE_DIV16) = false) by (apply Z.eqb_neq; unfold OV7670_SIZE_DIV16; lia).
  assert (H3 : (c <=? OV7670_SIZE_DIV8) = true) by (apply Z.leb_le; unfold OV7670_SIZE_DIV8; lia).
  rewrite H1, H2, H3.
  do 2 bus_step ltac:(first [exact Hff | closed_byte]).
  unfold bind at 1. rewrite write_register_bad_value; [reflexivity|].
  unfold is_byte. destruct (Z.leb_spec 0 (c * 17)); [lia | reflexivity].
Qed.

(** X7. A size from -5 to -1 is accepted by the row lookup, since a
    negative index counts from the end of [_window].  On a healthy bus
    [_frame_control] then writes 0 to COM3 and 0 to COM14, and raises
    [ValueError] at SCALING_DCWCTR, whose value [size * 0x11] is negative
    and does not fit the [bytearray] cell.  No attribute changes, so
    [_size] keeps the old size although two registers were rewritten. *)
Theorem size_setter_negative_index (self : OV7670) (value : Z) :
  fault_free (_i2c_device self) ->
  -5 <= value < 0 ->
  let out := size_setter value self in
  py_index _window value = py_index _window (value + 5) /\
  fst out = Raise ValueError /\
  emitted self (snd out) = [EvWrite _OV7670_REG_COM3 0; EvWrite _OV7670_REG_COM14 0] /\
  same_attrs self (snd out).
Proof.
  intros Hff Hv out.
  assert (Hcases : value = -5 \/ value = -4 \/ value = -3 \/ value = -2 \/ value = -1) by lia.
  split; [destruct Hcases as [->|[->|[->|[->| ->]]]]; reflexivity|].
  assert (Hrow : exists row, py_index _window value = Some row)
    by (destruct Hcases as [->|[->|[->|[->| ->]]]]; eexists; reflexivity).
  destruct Hrow as ([[[vstart hstart] edge_offset] pclk_delay] & Hrow).
  subst out. unfold size_setter. rewrite Hrow. unfold bind.
  rewrite frame_control_negative by (first [exact Hff | lia]).
  cbn [fst snd]. split; [reflexivity|]. split.
  - apply emitted_app. cbn [_i2c_device with_device]. flatten_trace. reflexivity.
  - destruct self; repeat split.
Qed.

Lemma size_setter_negative_index_witness :
  fst (size_setter (-1) fresh_camera) = Raise ValueError /\
  size (snd (size_setter (-1) fresh_camera)) = Some OV7670_SIZE_DIV8.
Proof.
  assert (Hff : fault_free (_i2c_device fresh_camera)) by (intro n; reflexivity).
  pose proof (size_setter_negative_index fresh_camera (-1) Hff ltac:(lia)) as H.
  cbv zeta in H. destruct H as (_ & H1 & _ & H2).
  split; [exact H1|]. unfold size. destruct H2 as (_ & H2 & _). rewrite H2. reflexivity.
Defined.

(** ** Setting twice *)

(** X8. The size setter forgets the size set before: on a healthy bus,
    setting size [c1] and then size [c2] leaves every register with the
    value that setting [c2] alone gives, and [_size] is [c2].  With
    [c1 = c2] this is idempotence. *)
Theorem size_setter_last_wins (self : OV7670) (c1 c2 : Z) :
  fault_free (_i2c_device self) ->
  0 <= reg_of self _OV7670_REG_SCALING_XSC < 256 ->
  0 <= reg_of self _OV7670_REG_SCALING_YSC < 256 ->
  0 <= c1 <= 4 -> 0 <= c2 <= 4 ->
  let once := size_setter c2 self in
  let twice := size_setter c2 (snd (size_setter c1 self)) in
  fst twice = Ok tt /\
  size (snd twice) = Some c2 /\
  size (snd once) = Some c2 /\
  forall r, reg_of (snd twice) r = reg_of (snd once) r.
Proof.
  intros Hff Hx Hy Hc1 Hc2 once twice.
  set (x := reg_of self _OV7670_REG_SCALING_XSC) in *.
  set (y := reg_of self _OV7670_REG_SCALING_YSC) in *.
  destruct (window_row c1 Hc1) as ([[[vs1 hs1] eo1] pd1] & Hrow1).
  destruct (window_row c2 Hc2) as ([[[vs2 hs2] eo2] pd2] & Hrow2).
  destruct (size_setter_run self c1 _ _ _ _ Hff Hx Hy Hc1 Hrow1)
    as (d1 & Hrun1 & Htr1 & Hfl1 & Hregs1).
  destruct (size_setter_run self c2 _ _ _ _ Hff Hx Hy Hc2 Hrow2)
    as (d2 & Hrun2 & Htr2 & Hfl2 & Hregs2).
  fold x y in Hregs1, Hregs2.
  set (zoom1 := if c1 =? OV7670_SIZE_DIV16 then 0x40 else 0x20).
  assert (Hzoom : zoom1 = 0x20 \/ zoom1 = 0x40)
    by (subst zoom1; destruct (c1 =? OV7670_SIZE_DIV16); auto).
  destruct (zoom_patch x zoom1 Hzoom) as (Hx7 & _ & _).
  destruct (zoom_patch y zoom1 Hzoom) as (Hy7 & _ & _).
  set (s1 := with_size (with_device self d1) (Some c1)) in *.
  assert (Hsx : reg_of s1 _OV7670_REG_SCALING_XSC = Z.lor (Z.land x 0x80) zoom1).
  { unfold reg_of, s1. simpl. rewrite Hregs1. reflexivity. }
  assert (Hsy : reg_of s1 _OV7670_REG_SCALING_YSC = Z.lor (Z.land y 0x80) zoom1).
  { unfold reg_of, s1. simpl. rewrite Hregs1. reflexivity. }
  assert (Hff1 : fault_free (_i2c_device s1)).
  { intro n. unfold s1. simpl. rewrite Hfl1. apply Hff. }
  assert (Hbx : 0 <= reg_of s1 _OV7670_REG_SCALING_XSC < 256).
  { rewrite Hsx. apply lor_byte; [apply land_byte; exact Hx | destruct Hzoom; lia]. }
  assert (Hby : 0 <= reg_of s1 _OV7670_REG_SCALING_YSC < 256).
  { rewrite Hsy. apply lor_byte; [apply land_byte; exact Hy | destruct Hzoom; lia]. }
  destruct (size_setter_run s1 c2 _ _ _ _ Hff1 Hbx Hby Hc2 Hrow2)
    as (d3 & Hrun3 & Htr3 & Hfl3 & Hregs3).
  subst once twice. rewrite Hrun1. cbn [snd]. fold s1. rewrite Hrun3, Hrun2.
  cbn [fst snd]. split; [reflexivity|]. split; [reflexivity|]. split; [reflexivity|].
  intro r. unfold reg_of. cbn [_i2c_device with_size with_device].
  rewrite Hregs3, Hregs2, Hsx, Hsy.
  assert (Hsame :
    writes_of (frame_events c2 vs2 hs2 eo2 pd2
                 (Z.lor (Z.land x 0x80) zoom1) (Z.lor (Z.land y 0x80) zoom1))
    = writes_of (frame_events c2 vs2 hs2 eo2 pd2 x y)).
  { unfold frame_events. cbv zeta. cbn [writes_of flat_map app].
    rewrite Hx7, Hy7. reflexivity. }
  rewrite Hsame.
  rewrite (replay_ext _ _ _ Hregs1 r).
  apply replay_shadow. rewrite !frame_events_registers. apply incl_refl.
Qed.

Lemma size_setter_last_wins_witness :
  fst (size_setter OV7670_SIZE_DIV2
         (snd (size_setter OV7670_SIZE_DIV16 patterned_camera))) = Ok tt /\
  reg_of (snd (size_setter OV7670_SIZE_DIV2
                 (snd (size_setter OV7670_SIZE_DIV16 patterned_camera))))
         _OV7670_REG_COM3
  = reg_of (snd (size_setter OV7670_SIZE_DIV2 patterned_camera)) _OV7670_REG_COM3.
Proof.
  assert (Hff : fault_free (_i2c_device patterned_camera)) by (intro n; reflexivity).
  pose proof (size_setter_last_wins patterned_camera OV7670_SIZE_DIV16 OV7670_SIZE_DIV2
                Hff ltac:(vm_compute; intuition congruence)
                ltac:(vm_compute; intuition congruence)
                ltac:(vm_compute; intuition congruence)
                ltac:(vm_compute; intuition congruence)) as H.
  cbv zeta in H. destruct H as (H1 & _ & _ & H2).
  split; [exact H1 | apply H2].
Defined.

(** X9. Selecting RGB forgets the colorspace selected before: whatever
    colorspace [c] was set first, setting RGB afterwards leaves every
    register as setting RGB alone does.  Selecting YUV does not: the YUV
    list has no entry for RGB444, so that register keeps the value it
    had, which is 0 when RGB was selected before. *)
Theorem colorspace_rgb_forgets_history (self : OV7670) (c : Z) :
  fault_free (_i2c_device self) ->
  let direct := snd (colorspace_setter OV7670_COLOR_RGB self) in
  let via := snd (colorspace_setter OV7670_COLOR_RGB (snd (colorspace_setter c self))) in
  let yuv := snd (colorspace_setter OV7670_COLOR_YUV self) in
  let back := snd (colorspace_setter OV7670_COLOR_YUV direct) in
  (forall r, reg_of via r = reg_of direct r) /\
  colorspace via = colorspace direct /\
  reg_of yuv _OV7670_REG_RGB444 = reg_of self _OV7670_REG_RGB444 /\
  reg_of back _OV7670_REG_RGB444 = 0.
Proof.
  intros Hff direct via yuv back.
  assert (Hstep : forall s k, fault_free (_i2c_device s) ->
            fault_free (_i2c_device (snd (colorspace_setter k s)))).
  { intros s k Hs n. rewrite (colorspace_setter_run s k Hs).
    cbn [snd _i2c_device with_device]. rewrite faults_dev_write_all. apply Hs. }
  subst direct via yuv back.
  rewrite (colorspace_setter_run _ OV7670_COLOR_RGB (Hstep self c Hff)).
  rewrite (colorspace_setter_run _ OV7670_COLOR_YUV (Hstep self OV7670_COLOR_RGB Hff)).
  rewrite !(colorspace_setter_run self _ Hff).
  unfold reg_of, colorspace.
  cbn [snd _i2c_device _colorspace with_device with_colorspace].
  rewrite !regs_dev_write_all.
  split; [|split; [reflexivity | split; reflexivity]].
  intro r. apply replay_shadow.
  destruct (c =? OV7670_COLOR_RGB); intros a H; simpl in H |- *; tauto.
Qed.

Lemma colorspace_rgb_forgets_history_witness :
  reg_of (snd (colorspace_setter OV7670_COLOR_RGB
                 (snd (colorspace_setter OV7670_COLOR_YUV (new_OV7670 dev0)))))
         _OV7670_REG_COM15
  = reg_of (snd (colorspace_setter OV7670_COLOR_RGB (new_OV7670 dev0)))
           _OV7670_REG_COM15.
Proof.
  pose proof (colorspace_rgb_forgets_history (new_OV7670 dev0) OV7670_COLOR_YUV
                (fun n => eq_refl)) as H.
  cbv zeta in H. destruct H as (H & _). apply H.
Defined.

Lemma pattern_patch_twice (v : Z) (on1 on2 : bool) :
  let patch := fun (w : Z) (on : bool) =>
    if on then Z.lor (Z.land w (Z.lnot 0x80)) 0x80 else Z.land w (Z.lnot 0x80) in
  patch (patch v on1) on2 = patch v on2.
Proof.
  cbv zeta beta.
  assert (H : Z.land (if on1 then Z.lor (Z.land v (Z.lnot 0x80)) 0x80
                      else Z.land v (Z.lnot 0x80)) (Z.lnot 0x80)
              = Z.land v (Z.lnot 0x80)).
  { destruct on1.
    - rewrite Z.land_lor_distr_l, <- Z.land_assoc, Z.land_diag.
      change (Z.land 128 (Z.lnot 128)) with 0. apply Z.lor_0_r.
    - rewrite <- Z.land_assoc, Z.land_diag. reflexivity. }
  rewrite H. reflexivity.
Qed.

Lemma upd_twice (f : Z -> Z) (a b va vb va' vb' r : Z) :
  upd (upd (upd (upd f a va) b vb) a va') b vb' r = upd (upd f a va') b vb' r.
Proof. unfold upd. destruct (r =? b), (r =? a); reflexivity. Qed.

(** X10. The test-pattern setter forgets the pattern set before and
    looks only at the low two bits of its argument: on a healthy bus,
    setting pattern [p1] and then [p2] leaves every register as setting
    [p2] alone does, and so does setting [p2 & 3]. *)
Theorem test_pattern_setter_last_wins (self : OV7670) (p1 p2 : Z) :
  fault_free (_i2c_device self) ->
  0 <= reg_of self _OV7670_REG_SCALING_XSC < 256 ->
  0 <= reg_of self _OV7670_REG_SCALING_YSC < 256 ->
  let once := test_pattern_setter p2 self in
  let twice := test_pattern_setter p2 (snd (test_pattern_setter p1 self)) in
  let low := test_pattern_setter (Z.land p2 3) self in
  fst twice = Ok tt /\
  (forall r, reg_of (snd twice) r = reg_of (snd once) r) /\
  (forall r, reg_of (snd low) r = reg_of (snd once) r).
Proof.
  intros Hff Hx Hy once twice low.
  pose proof (test_pattern_setter_run self p1 Hff Hx Hy) as Hrun1.
  pose proof (test_pattern_setter_run self p2 Hff Hx Hy) as Hrun2.
  pose proof (test_pattern_setter_run self (Z.land p2 3) Hff Hx Hy) as Hrun4.
  cbv zeta in Hrun1, Hrun2, Hrun4.
  destruct (pattern_patch _ (Z.testbit p1 0) Hx) as (Hbx & _ & _).
  destruct (pattern_patch _ (Z.testbit p1 1) Hy) as (Hby & _ & _).
  cbv zeta in Hbx, Hby.
  set (s1 := snd (test_pattern_setter p1 self)) in *.
  assert (Hs1 : s1 = snd (test_pattern_setter p1 self)) by reflexivity.
  rewrite Hrun1 in Hs1. cbn [snd] in Hs1.
  assert (Hff1 : fault_free (_i2c_device s1)).
  { rewrite Hs1. intro n. simpl. apply Hff. }
  assert (Hsx : reg_of s1 _OV7670_REG_SCALING_XSC =
                if Z.testbit p1 0
                then Z.lor (Z.land (reg_of self _OV7670_REG_SCALING_XSC) (Z.lnot 0x80)) 0x80
                else Z.land (reg_of self _OV7670_REG_SCALING_XSC) (Z.lnot 0x80))
    by (rewrite Hs1; reflexivity).
  assert (Hsy : reg_of s1 _OV7670_REG_SCALING_YSC =
                if Z.testbit p1 1
                then Z.lor (Z.land (reg_of self _OV7670_REG_SCALING_YSC) (Z.lnot 0x80)) 0x80
                else Z.land (reg_of self _OV7670_REG_SCALING_YSC) (Z.lnot 0x80))
    by (rewrite Hs1; reflexivity).
  assert (Hbx1 : 0 <= reg_of s1 _OV7670_REG_SCALING_XSC < 256) by (rewrite Hsx; exact Hbx).
  assert (Hby1 : 0 <= reg_of s1 _OV7670_REG_SCALING_YSC < 256) by (rewrite Hsy; exact Hby).
  pose proof (test_pattern_setter_run s1 p2 Hff1 Hbx1 Hby1) as Hrun3.
  cbv zeta in Hrun3. rewrite Hsx, Hsy in Hrun3.
  pose proof (pattern_patch_twice (reg_of self _OV7670_REG_SCALING_XSC)
                (Z.testbit p1 0) (Z.testbit p2 0)) as Hpx.
  pose proof (pattern_patch_twice (reg_of self _OV7670_REG_SCALING_YSC)
                (Z.testbit p1 1) (Z.testbit p2 1)) as Hpy.
  cbv zeta beta in Hpx, Hpy. rewrite Hpx, Hpy in Hrun3.
  subst once twice low. rewrite Hrun3, Hrun2, Hrun4. cbn [fst snd].
  split; [reflexivity|]. split.
  - intro r. rewrite Hs1. unfold reg_of.
    cbn [_i2c_device with_device regs dev_write dev_read].
    apply upd_twice.
  - intro r.
    assert (H0 : Z.testbit (Z.land p2 3) 0 = Z.testbit p2 0)
      by (rewrite Z.land_spec; apply andb_true_r).
    assert (H1 : Z.testbit (Z.land p2 3) 1 = Z.testbit p2 1)
      by (rewrite Z.land_spec; apply andb_true_r).
    rewrite H0, H1. reflexivity.
Qed.

Lemma test_pattern_setter_last_wins_witness :
  reg_of (snd (test_pattern_setter OV7670_TEST_PATTERN_NONE
                 (snd (test_pattern_setter OV7670_TEST_PATTERN_COLOR_BAR_FADE
                         patterned_camera))))
         _OV7670_REG_SCALING_XSC
  = reg_of (snd (test_pattern_setter OV7670_TEST_PATTERN_NONE patterned_camera))
           _OV7670_REG_SCALING_XSC.
Proof.
  assert (Hff : fault_free (_i2c_device patterned_camera)) by (intro n; reflexivity).
  pose proof (test_pattern_setter_last_wins patterned_camera
                OV7670_TEST_PATTERN_COLOR_BAR_FADE OV7670_TEST_PATTERN_NONE
                Hff ltac:(vm_compute; intuition congruence)
                ltac:(vm_compute; intuition congruence)) as H.
  cbv zeta in H. destruct H as (_ & H & _). apply H.
Defined.

(** ** Night mode values *)

Lemma lor_not_byte (a v : Z) :
  0 <= a -> v < 0 \/ 256 <= v -> is_byte (Z.lor a v) = false.
Proof.
  intros Ha Hv. destruct (is_byte (Z.lor a v)) eqn:Hb; [|reflexivity].
  apply is_byte_true in Hb. exfalso. destruct Hv as [Hv|Hv].
  - assert (Z.lor a v < 0) by (apply Z.lor_neg; right; exact Hv). lia.
  - assert (Hs : Z.shiftr (Z.lor a v) 8 = 0).
    { rewrite Z.shiftr_div_pow2 by lia. apply Z.div_small. exact Hb. }
    rewrite Z.shiftr_lor in Hs. apply Z.lor_eq_0_iff in Hs as [_ Hs].
    rewrite Z.shiftr_div_pow2 in Hs by lia.
    change (2 ^ 8) with 256 in Hs.
    pose proof (Z.div_mod v 256 ltac:(lia)) as Hdm.
    pose proof (Z.mod_pos_bound v 256 ltac:(lia)). lia.
Qed.

(** X11. A night-mode value outside 0..255 is refused only at the write:
    on a healthy bus the setter reads COM11, then raises [ValueError]
    because [(com11 & 0x1F) | value] does not fit the [bytearray] cell;
    the read is the only transaction, no register and no attribute
    changes. *)
Theorem night_setter_rejects_non_byte (self : OV7670) (value : Z) :
  fault_free (_i2c_device self) ->
  0 <= reg_of self _OV7670_REG_COM11 < 256 ->
  value < 0 \/ 256 <= value ->
  let out := night_setter value self in
  fst out = Raise ValueError /\
  emitted self (snd out) = [EvRead _OV7670_REG_COM11 (reg_of self _OV7670_REG_COM11)] /\
  night (snd out) = night self /\
  forall r, reg_of (snd out) r = reg_of self r.
Proof.
  intros Hff Hb Hv out.
  assert (Hrun : night_setter value self =
                 (Raise ValueError,
                  with_device self (dev_read (_i2c_device self) _OV7670_REG_COM11))).
  { unfold night_setter.
    bus_step ltac:(first [exact Hff | closed_byte]).
    unfold bind. rewrite write_register_bad_value; [reflexivity|].
    apply lor_not_byte; [|exact Hv].
    apply (land_byte _ 0x1F) in Hb. unfold reg_of in Hb. lia. }
  subst out. rewrite Hrun. cbn [fst snd].
  split; [reflexivity|]. split; [|split; [reflexivity|]].
  - apply emitted_app. reflexivity.
  - intro r. reflexivity.
Qed.

Lemma night_setter_rejects_non_byte_witness :
  fst (night_setter 0x100 baseline_camera) = Raise ValueError /\
  night (snd (night_setter 0x100 baseline_camera)) = OV7670_NIGHT_MODE_OFF.
Proof.
  assert (Hff : fault_free (_i2c_device baseline_camera)) by (intro n; reflexivity).
  pose proof (night_setter_rejects_non_byte baseline_camera 0x100 Hff
                ltac:(vm_compute; intuition congruence) ltac:(right; lia)) as H.
  cbv zeta in H. destruct H as (H1 & _ & H2 & _).
  split; [exact H1 | exact H2].
Defined.

(** X12. The night setter forgets the mode set before: for a first value
    [m1] that keeps the low five bits clear (as the four modes do) and
    any byte [m2], setting [m1] and then [m2] leaves every register as
    setting [m2] alone does, and the getter returns [m2]. *)
Theorem night_setter_last_wins (self : OV7670) (m1 m2 : Z) :
  fault_free (_i2c_device self) ->
  0 <= reg_of self _OV7670_REG_COM11 < 256 ->
  0 <= m1 < 256 -> Z.land m1 0x1F = 0 ->
  0 <= m2 < 256 ->
  let once := night_setter m2 self in
  let twice := night_setter m2 (snd (night_setter m1 self)) in
  fst twice = Ok tt /\
  night (snd twice) = m2 /\
  forall r, reg_of (snd twice) r = reg_of (snd once) r.
Proof.
  intros Hff Hb Hm1 Hlow Hm2 once twice.
  pose proof (night_setter_run self m1 Hff Hb Hm1) as Hrun1.
  pose proof (night_setter_run self m2 Hff Hb Hm2) as Hrun2.
  cbv zeta in Hrun1, Hrun2.
  set (b := reg_of self _OV7670_REG_COM11) in *.
  set (s1 := snd (night_setter m1 self)) in *.
  assert (Hs1 : s1 = snd (night_setter m1 self)) by reflexivity.
  rewrite Hrun1 in Hs1. cbn [snd] in Hs1.
  assert (Hff1 : fault_free (_i2c_device s1)).
  { rewrite Hs1. intro n. simpl. apply Hff. }
  assert (Hb1 : reg_of s1 _OV7670_REG_COM11 = Z.lor (Z.land b 0x1F) m1)
    by (rewrite Hs1; reflexivity).
  assert (Hbyte1 : 0 <= reg_of s1 _OV7670_REG_COM11 < 256).
  { rewrite Hb1. apply lor_byte; [apply land_byte; exact Hb | exact Hm1]. }
  pose proof (night_setter_run s1 m2 Hff1 Hbyte1 Hm2) as Hrun3.
  cbv zeta in Hrun3. rewrite Hb1 in Hrun3.
  assert (Hmask : Z.land (Z.lor (Z.land b 0x1F) m1) 0x1F = Z.land b 0x1F).
  { rewrite Z.land_lor_distr_l, Hlow, Z.lor_0_r, <- Z.land_assoc, Z.land_diag.
    reflexivity. }
  rewrite Hmask in Hrun3.
  subst once twice. rewrite Hrun3, Hrun2. cbn [fst snd].
  split; [reflexivity|]. split; [reflexivity|].
  intro r. rewrite Hs1. unfold reg_of.
  cbn [_i2c_device with_device with_night regs dev_write dev_read].
  unfold upd. destruct (r =? _OV7670_REG_COM11); reflexivity.
Qed.

Lemma night_setter_last_wins_witness :
  night (snd (night_setter OV7670_NIGHT_MODE_2
                (snd (night_setter OV7670_NIGHT_MODE_8 baseline_camera))))
  = OV7670_NIGHT_MODE_2 /\
  reg_of (snd (night_setter OV7670_NIGHT_MODE_2
                 (snd (night_setter OV7670_NIGHT_MODE_8 baseline_camera))))
         _OV7670_REG_COM11
  = reg_of (snd (night_setter OV7670_NIGHT_MODE_2 baseline_camera)) _OV7670_REG_COM11.
Proof.
  assert (Hff : fault_free (_i2c_device baseline_camera)) by (intro n; reflexivity).
  pose proof (night_setter_last_wins baseline_camera
                OV7670_NIGHT_MODE_8 OV7670_NIGHT_MODE_2 Hff
                ltac:(vm_compute; intuition congruence)
                ltac:(vm_compute; intuition congruence)
                ltac:(reflexivity)
                ltac:(vm_compute; intuition congruence)) as H.
  cbv zeta in H. destruct H as (_ & H1 & H2).
  split; [exact H1 | apply H2].
Defined.

(** ** The two flip setters together *)

Lemma set_flip_writes_flip_byte (self : OV7670) :
  fault_free (_i2c_device self) ->
  0 <= reg_of self _OV7670_REG_MVFP < 256 ->
  _set_flip self =
  (Ok tt,
   with_device self
     (dev_write (dev_read (_i2c_device self) _OV7670_REG_MVFP) _OV7670_REG_MVFP
        (flip_byte (reg_of self _OV7670_REG_MVFP) (_flip_x self) (_flip_y self)))).
Proof. intros Hff Hb. exact (set_flip_run self Hff Hb). Qed.

Lemma flip_byte_spec (b : Z) (fx fy : bool) :
  0 <= b < 256 ->
  0 <= flip_byte b fx fy < 256 /\
  forall i, 0 <= i ->
    Z.testbit (flip_byte b fx fy) i
    = if i =? 4 then fy else if i =? 5 then fx else Z.testbit b i.
Proof. intro Hb. exact (flip_patch b fx fy Hb). Qed.

Lemma flip_byte_twice (b : Z) (fx fy fx' fy' : bool) :
  0 <= b < 256 ->
  flip_byte (flip_byte b fx fy) fx' fy' = flip_byte b fx' fy'.
Proof.
  intro Hb.
  destruct (flip_byte_spec b fx fy Hb) as (Hb1 & Hbits1).
  destruct (flip_byte_spec _ fx' fy' Hb1) as (_ & Hbits2).
  destruct (flip_byte_spec b fx' fy' Hb) as (_ & Hbits3).
  apply Z.bits_inj'. intros i Hi.
  rewrite Hbits2, Hbits3, Hbits1 by exact Hi.
  destruct (i =? 4), (i =? 5); reflexivity.
Qed.

(** X13. After both flip setters, in either order, driver and register
    agree: on a healthy bus, [flip_x = a] followed by [flip_y = b]
    succeeds, the getters return [bool(a)] and [bool(b)], bit 5 of MVFP
    is [flip_x], bit 4 is [flip_y], every other bit of MVFP is the one
    found, and calling the two setters in the other order leaves the
    same register file. *)
Theorem flip_setters_compose (self : OV7670) (a b : Z) :
  fault_free (_i2c_device self) ->
  0 <= reg_of self _OV7670_REG_MVFP < 256 ->
  let xy := flip_y_setter b (snd (flip_x_setter a self)) in
  let yx := flip_x_setter a (snd (flip_y_setter b self)) in
  let mvfp := reg_of (snd xy) _OV7670_REG_MVFP in
  fst xy = Ok tt /\ fst yx = Ok tt /\
  flip_x (snd xy) = negb (a =? 0) /\ flip_y (snd xy) = negb (b =? 0) /\
  Z.testbit mvfp 5 = flip_x (snd xy) /\
  Z.testbit mvfp 4 = flip_y (snd xy) /\
  (forall i, 0 <= i -> i <> 4 -> i <> 5 ->
     Z.testbit mvfp i = Z.testbit (reg_of self _OV7670_REG_MVFP) i) /\
  (forall r, reg_of (snd yx) r = reg_of (snd xy) r).
Proof.
  intros Hff Hb xy yx mvfp.
  set (m := reg_of self _OV7670_REG_MVFP) in *.
  set (a' := negb (a =? 0)). set (b' := negb (b =? 0)).
  assert (Hstep : forall s fx fy,
            fault_free (_i2c_device s) -> 0 <= reg_of s _OV7670_REG_MVFP < 256 ->
            let s' := with_flip_y (with_flip_x s fx) fy in
            _set_flip s' =
            (Ok tt, with_device s'
               (dev_write (dev_read (_i2c_device s) _OV7670_REG_MVFP) _OV7670_REG_MVFP
                  (flip_byte (reg_of s _OV7670_REG_MVFP) fx fy)))).
  { intros s fx fy Hs Hbs s'.
    exact (set_flip_writes_flip_byte s' Hs Hbs). }
  (* x then y *)
  assert (Hx1 : flip_x_setter a self =
                (Ok tt, with_device (with_flip_x self a')
                  (dev_write (dev_read (_i2c_device self) _OV7670_REG_MVFP)
                     _OV7670_REG_MVFP (flip_byte m a' (_flip_y self))))).
  { pose proof (Hstep self a' (_flip_y self) Hff Hb) as H. cbv zeta in H.
    destruct self; exact H. }
  destruct (flip_byte_spec m a' (_flip_y self) Hb) as (Hb1 & _).
  assert (Hxy : xy =
                (Ok tt, with_device (with_flip_y (with_flip_x self a') b')
                  (dev_write (dev_read
                     (dev_write (dev_read (_i2c_device self) _OV7670_REG_MVFP)
                        _OV7670_REG_MVFP (flip_byte m a' (_flip_y self)))
                     _OV7670_REG_MVFP)
                     _OV7670_REG_MVFP (flip_byte m a' b')))).
  { subst xy. rewrite Hx1. cbn [snd].
    rewrite <- (flip_byte_twice m a' (_flip_y self) a' b' Hb).
    pose proof (Hstep (with_device (with_flip_x self a')
                  (dev_write (dev_read (_i2c_device self) _OV7670_REG_MVFP)
                     _OV7670_REG_MVFP (flip_byte m a' (_flip_y self))))
                  a' b' Hff Hb1) as H.
    cbv zeta in H. destruct self; exact H. }
  (* y then x *)
  assert (Hy1 : flip_y_setter b self =
                (Ok tt, with_device (with_flip_y self b')
                  (dev_write (dev_read (_i2c_device self) _OV7670_REG_MVFP)
                     _OV7670_REG_MVFP (flip_byte m (_flip_x self) b')))).
  { pose proof (Hstep self (_flip_x self) b' Hff Hb) as H. cbv zeta in H.
    destruct self; exact H. }
  destruct (flip_byte_spec m (_flip_x self) b' Hb) as (Hb2 & _).
  assert (Hyx : yx =
                (Ok tt, with_device (with_flip_x (with_flip_y self b') a')
                  (dev_write (dev_read
                     (dev_write (dev_read (_i2c_device self) _OV7670_REG_MVFP)
                        _OV7670_REG_MVFP (flip_byte m (_flip_x self) b'))
                     _OV7670_REG_MVFP)
                     _OV7670_REG_MVFP (flip_byte m a' b')))).
  { subst yx. rewrite Hy1. cbn [snd].
    rewrite <- (flip_byte_twice m (_flip_x self) b' a' b' Hb).
    pose proof (Hstep (with_device (with_flip_y self b')
                  (dev_write (dev_read (_i2c_device self) _OV7670_REG_MVFP)
                     _OV7670_REG_MVFP (flip_byte m (_flip_x self) b')))
                  a' b' Hff Hb2) as H.
    cbv zeta in H. destruct self; exact H. }
  destruct (flip_byte_spec m a' b' Hb) as (_ & Hbits).
  assert (Hm : mvfp = flip_byte m a' b') by (subst mvfp; rewrite Hxy; reflexivity).
  rewrite Hm, Hxy, Hyx. cbn [fst snd].
  split; [reflexivity|]. split; [reflexivity|].
  split; [reflexivity|]. split; [reflexivity|].
  split; [rewrite Hbits by lia; reflexivity|].
  split; [rewrite Hbits by lia; reflexivity|].
  split.
  - intros i Hi H4 H5. rewrite Hbits by exact Hi.
    destruct (Z.eqb_spec i 4); [contradiction|].
    destruct (Z.eqb_spec i 5); [contradiction|]. reflexivity.
  - intro r. unfold reg_of.
    cbn [_i2c_device with_device regs dev_write dev_read]. unfold upd.
    destruct (r =? _OV7670_REG_MVFP); reflexivity.
Qed.

Lemma flip_setters_compose_witness :
  reg_of (snd (flip_y_setter 1 (snd (flip_x_setter 1 stale_vflip)))) _OV7670_REG_MVFP
  = 0x37 /\
  reg_of (snd (flip_x_setter 1 (snd (flip_y_setter 1 stale_vflip)))) _OV7670_REG_MVFP
  = reg_of (snd (flip_y_setter 1 (snd (flip_x_setter 1 stale_vflip)))) _OV7670_REG_MVFP.
Proof.
  assert (Hff : fault_free (_i2c_device stale_vflip)) by (intro n; reflexivity).
  pose proof (flip_setters_compose stale_vflip 1 1 Hff
                ltac:(vm_compute; intuition congruence)) as H.
  cbv zeta in H. destruct H as (_ & _ & _ & _ & _ & _ & _ & H).
  split; [reflexivity | apply H].
Defined.

(** ** The state construction leaves *)




(** ** Failed transactions *)























(** ** The example *)



